(** * 0x02-redis_basic/exercise.py: the [Cache] class, the two decorators
    and [replay], over a model of the Redis server they talk to.

    Layout of the file:
    - byte strings, UTF-8 and decimal text;
    - Python values, exceptions and the state the program acts on;
    - the Redis client, [uuid.uuid4] and [str] of a UUID;
    - the program: [Cache], the decorators, the module body, [replay]
      and clients of the module;
    - the properties: server commands, decimal text and keys first, then
      each part of the program, the module body last;
    - the model and the properties on sample data;
    - further properties of [store], the readers, [replay] and the
      decorators, and their samples. *)

From Stdlib Require Import ZArith String Ascii List DecimalString DecimalPos Floats.PrimFloat.
From stdpp Require Import gmap strings list.

Open Scope string_scope.
Open Scope Z_scope.

(** ** Byte strings and text

    A Python [bytes] object is a [string]: one [ascii] per byte.  A Python
    [str] is carried by its UTF-8 encoding, so [s.encode("utf-8")] is the
    identity and [b.decode("utf-8")] is a validity check. *)

Definition byte_val (a : ascii) : N := N_of_ascii a.

Definition is_cont (a : ascii) : bool :=
  (0x80 <=? byte_val a)%N && (byte_val a <=? 0xBF)%N.

Definition in_range (lo hi : N) (a : ascii) : bool :=
  (lo <=? byte_val a)%N && (byte_val a <=? hi)%N.

(** The well-formed byte sequences of the strict UTF-8 codec: no overlong
    form, no surrogate, nothing above U+10FFFF. *)
Fixpoint utf8_valid (b : string) : bool :=
  match b with
  | EmptyString => true
  | String a0 r0 =>
    if (byte_val a0 <? 0x80)%N then utf8_valid r0
    else match r0 with
    | EmptyString => false
    | String a1 r1 =>
      if in_range 0xC2 0xDF a0 then is_cont a1 && utf8_valid r1
      else match r1 with
      | EmptyString => false
      | String a2 r2 =>
        if in_range 0xE0 0xEF a0 then
          (if (byte_val a0 =? 0xE0)%N then in_range 0xA0 0xBF a1
           else if (byte_val a0 =? 0xED)%N then in_range 0x80 0x9F a1
           else is_cont a1)
          && is_cont a2 && utf8_valid r2
        else match r2 with
        | EmptyString => false
        | String a3 r3 =>
          in_range 0xF0 0xF4 a0
          && (if (byte_val a0 =? 0xF0)%N then in_range 0x90 0xBF a1
              else if (byte_val a0 =? 0xF4)%N then in_range 0x80 0x8F a1
              else is_cont a1)
          && is_cont a2 && is_cont a3 && utf8_valid r3
        end
      end
    end
  end.

(** ** Decimal text of integers *)

(** The decimal text of an integer: a minus sign when negative, no
    leading zero. *)
Definition int_repr (z : Z) : string := NilZero.string_of_int (Z.to_int z).

(** The interpreter converts between [int] and decimal text only up to
    [sys.get_int_max_str_digits()] digits, 4300 unless configured. *)
Definition int_max_str_digits : N := 4300.

(** The number of decimal digits of an integer, the sign left out. *)
Definition int_digits (z : Z) : N := N.of_nat (String.length (int_repr (Z.abs z))).

Definition is_digit (a : ascii) : bool := in_range 48 57 a.

Definition digit_val (a : ascii) : Z := Z.of_N (byte_val a) - 48.

(** Digits with single underscores allowed between them, accumulated in
    base ten; [after_digit] tells whether the previous character was one. *)
Fixpoint digits_acc (s : string) (acc : Z) (after_digit : bool) : option Z :=
  match s with
  | EmptyString => if after_digit then Some acc else None
  | String a r =>
    if is_digit a then digits_acc r (10 * acc + digit_val a) true
    else if Ascii.eqb a "_" && after_digit then digits_acc r acc false
    else None
  end.

(** The value of a big-endian digit sequence read after [acc]. *)
Fixpoint horner (d : Decimal.uint) (acc : Z) : Z :=
  match d with
  | Decimal.Nil => acc
  | Decimal.D0 l => horner l (10 * acc + 0)
  | Decimal.D1 l => horner l (10 * acc + 1)
  | Decimal.D2 l => horner l (10 * acc + 2)
  | Decimal.D3 l => horner l (10 * acc + 3)
  | Decimal.D4 l => horner l (10 * acc + 4)
  | Decimal.D5 l => horner l (10 * acc + 5)
  | Decimal.D6 l => horner l (10 * acc + 6)
  | Decimal.D7 l => horner l (10 * acc + 7)
  | Decimal.D8 l => horner l (10 * acc + 8)
  | Decimal.D9 l => horner l (10 * acc + 9)
  end.

Definition signed_digits (s : string) : option Z :=
  match s with
  | String "-" r => Z.opp <$> digits_acc r 0 false
  | String "+" r => digits_acc r 0 false
  | _ => digits_acc s 0 false
  end.

Definition is_space (a : ascii) : bool :=
  (byte_val a =? 32)%N || in_range 9 13 a.

Fixpoint lstrip (s : string) : string :=
  match s with
  | String a r => if is_space a then lstrip r else s
  | EmptyString => EmptyString
  end.

Fixpoint rstrip (s : string) : string :=
  match s with
  | EmptyString => EmptyString
  | String a r =>
    match rstrip r with
    | EmptyString => if is_space a then EmptyString else String a EmptyString
    | r' => String a r'
    end
  end.

(** ** Python values, exceptions *)

Inductive exn : Type :=
  | AttributeError (msg : string)
  | TypeError (msg : string)
  | ValueError (msg : string)
  | UnicodeDecodeError
  | DataError (msg : string)        (* redis.exceptions.DataError *)
  | ResponseError (msg : string).   (* redis.exceptions.ResponseError *)

Inductive outcome (A : Type) : Type :=
  | Returned (a : A)
  | Raised (e : exn).
Arguments Returned {A} a.
Arguments Raised {A} e.

(** The values the program passes around: [None] and the four scalar
    types [Cache.store] is annotated with. *)
Inductive pyval : Type :=
  | PNone
  | PStr (s : string)
  | PBytes (b : string)
  | PInt (z : Z)
  | PFloat (f : float).

(** [bytes.decode("utf-8")] *)
Definition decode_utf8 (b : string) : outcome string :=
  if utf8_valid b then Returned b else Raised UnicodeDecodeError.

Definition exceeds_limit : exn :=
  ValueError "Exceeds the limit (4300 digits) for integer string conversion".

(** [repr(n)] and [str(n)] for an [int]. *)
Definition int_str (z : Z) : outcome string :=
  if (int_digits z <=? int_max_str_digits)%N then Returned (int_repr z)
  else Raised exceeds_limit.

(** The number of digits in the leading run of digits and single
    underscores of [s]; nothing when the run is empty or an underscore in
    it does not stand between two digits. *)
Fixpoint run_digits (s : string) (after_digit : bool) (count : N) : option N :=
  match s with
  | EmptyString => if after_digit then Some count else None
  | String a r =>
    if is_digit a then run_digits r true (N.succ count)
    else if Ascii.eqb a "_" then (if after_digit then run_digits r false count else None)
    else if after_digit then Some count else None
  end.

Definition unsigned_part (s : string) : string :=
  match s with
  | String "-" r => r
  | String "+" r => r
  | _ => s
  end.

(** [int(b)] for a [bytes] argument: surrounding ASCII white space and one
    sign are accepted; a well-formed run of more than
    [int_max_str_digits] digits is refused before anything after it is
    looked at. *)
Definition py_int (b : string) : outcome Z :=
  let s := rstrip (lstrip b) in
  match run_digits (unsigned_part s) false 0 with
  | Some n =>
    if (int_max_str_digits <? n)%N then Raised exceeds_limit
    else match signed_digits s with
         | Some z => Returned z
         | None => Raised (ValueError "invalid literal for int() with base 10")
         end
  | None => Raised (ValueError "invalid literal for int() with base 10")
  end.

(** ** The Redis server and the process state

    A key of the server holds a string or a list of strings. *)
Inductive rvalue : Type :=
  | RString (v : string)
  | RList (l : list string).

Inductive command : Type :=
  | FLUSHDB
  | SET (key value : string)
  | GET (key : string)
  | INCRBY (key : string) (amount : Z)
  | RPUSH (key value : string)
  | LRANGE (key : string) (start stop : Z).

(** What the program can act on: the keyspace of the server at the
    default address (every [redis.Redis()] of the program connects to it),
    the commands the server has received, oldest first, the lines printed,
    and the operating system's random source with the number of 16-byte
    draws made so far. *)
Record world : Type := World {
  keyspace : gmap string rvalue;
  wire : list command;
  stdout : list string;
  urandom : nat -> N;
  drawn : nat
}.

Definition M (A : Type) : Type := world -> world * outcome A.

Definition ret {A} (a : A) : M A := fun w => (w, Returned a).

Definition raise {A} (e : exn) : M A := fun w => (w, Raised e).

Definition bind {A B} (m : M A) (k : A -> M B) : M B :=
  fun w => match m w with
           | (w1, Returned a) => k a w1
           | (w1, Raised e) => (w1, Raised e)
           end.

Definition lift {A} (o : outcome A) : M A := fun w => (w, o).

Notation "x <- m ;; k" := (bind m (fun x => k))
  (at level 100, m at next level, right associativity).
Notation "m ;;; k" := (bind m (fun _ => k))
  (at level 100, right associativity).

Definition with_keyspace (f : gmap string rvalue -> gmap string rvalue) (w : world) : world :=
  World (f (keyspace w)) (wire w) (stdout w) (urandom w) (drawn w).

Definition send (c : command) : M unit :=
  fun w => (World (keyspace w) (wire w ++ [c]) (stdout w) (urandom w) (drawn w), Returned tt).

Definition print (line : string) : M unit :=
  fun w => (World (keyspace w) (wire w) (stdout w ++ [line]) (urandom w) (drawn w), Returned tt).

(** [os.urandom(16)], read as a big-endian number. *)
Definition os_urandom16 : M Z :=
  fun w => (World (keyspace w) (wire w) (stdout w) (urandom w) (S (drawn w)),
            Returned (Z.of_N (urandom w (drawn w) mod 2 ^ 128)%N)).

(** ** Built-in renderings

    [repr] of a [str], a [bytes] and a [float] object is the interpreter's;
    the development is parametric in the three. *)
Class PyRepr : Type := {
  str_repr : string -> string;
  bytes_repr : string -> string;
  float_repr : float -> string
}.

Section Program.
Context `{PyRepr}.

Definition py_repr (v : pyval) : outcome string :=
  match v with
  | PNone => Returned "None"
  | PStr s => Returned (str_repr s)
  | PBytes b => Returned (bytes_repr b)
  | PInt z => int_str z
  | PFloat f => Returned (float_repr f)
  end.

(** [str(v)]: a [str] is returned as it is, the other types have no
    [__str__] of their own. *)
Definition py_str (v : pyval) : outcome string :=
  match v with
  | PStr s => Returned s
  | _ => py_repr v
  end.

(** [repr] of each element in turn, up to the first that raises. *)
Fixpoint py_reprs (l : list pyval) : outcome (list string) :=
  match l with
  | [] => Returned []
  | v :: rest =>
    match py_repr v with
    | Returned x =>
      match py_reprs rest with
      | Returned xs => Returned (x :: xs)
      | Raised e => Raised e
      end
    | Raised e => Raised e
    end
  end.

Fixpoint join (sep : string) (l : list string) : string :=
  match l with
  | [] => ""
  | [x] => x
  | x :: r => x ++ sep ++ join sep r
  end.

(** [str(args)] for the tuple [args] *)
Definition tuple_str (args : list pyval) : outcome string :=
  match py_reprs args with
  | Returned [x] => Returned ("(" ++ x ++ ",)")
  | Returned xs => Returned ("(" ++ join ", " xs ++ ")")
  | Raised e => Raised e
  end.

(** ** The Redis client

    The client turns every argument into bytes before sending it. *)
Definition encode_value (value : pyval) : outcome string :=
  match value with
  | PBytes b => Returned b
  | PInt z => int_str z
  | PFloat f => Returned (float_repr f)
  | PStr s => Returned s
  | PNone => Raised (DataError "Invalid input of type: 'NoneType'")
  end.

Definition wrongtype : exn :=
  ResponseError "WRONGTYPE Operation against a key holding the wrong kind of value".

(** The server reads a counter only from the canonical decimal text of a
    signed 64-bit number. *)
Definition string2ll (s : string) : option Z :=
  match signed_digits s with
  | Some z =>
    if decide (int_repr z = s /\ - 2 ^ 63 <= z < 2 ^ 63) then Some z else None
  | None => None
  end.

Definition redis_flushdb : M bool :=
  send FLUSHDB;;;
  fun w => (with_keyspace (fun _ => ∅) w, Returned true).

Definition redis_set (key : string) (value : pyval) : M bool :=
  v <- lift (encode_value value);;
  send (SET key v);;;
  fun w => (with_keyspace (insert key (RString v)) w, Returned true).

Definition redis_get (key : string) : M (option string) :=
  send (GET key);;;
  fun w => match keyspace w !! key with
           | None => (w, Returned None)
           | Some (RString v) => (w, Returned (Some v))
           | Some (RList _) => (w, Raised wrongtype)
           end.

(** [incr(name)] is [incrby(name, 1)]. *)
Definition redis_incr (key : string) : M Z :=
  send (INCRBY key 1);;;
  fun w => match keyspace w !! key with
           | None => (with_keyspace (insert key (RString (int_repr 1))) w, Returned 1)
           | Some (RString v) =>
             match string2ll v with
             | Some n =>
               if decide (n + 1 < 2 ^ 63)
               then (with_keyspace (insert key (RString (int_repr (n + 1)))) w,
                     Returned (n + 1))
               else (w, Raised (ResponseError "increment or decrement would overflow"))
             | None => (w, Raised (ResponseError "value is not an integer or out of range"))
             end
           | Some (RList _) => (w, Raised wrongtype)
           end.

Definition redis_rpush (key : string) (value : pyval) : M Z :=
  v <- lift (encode_value value);;
  send (RPUSH key v);;;
  fun w => match keyspace w !! key with
           | None => (with_keyspace (insert key (RList [v])) w, Returned 1)
           | Some (RList l) =>
             (with_keyspace (insert key (RList (l ++ [v]))) w,
              Returned (Z.of_nat (length (l ++ [v]))))
           | Some (RString _) => (w, Raised wrongtype)
           end.

(** The elements from [start] to [stop], both included; a negative index
    counts from the end. *)
Definition lrange_slice (l : list string) (start stop : Z) : list string :=
  let len := Z.of_nat (length l) in
  let start := if start <? 0 then Z.max 0 (len + start) else start in
  let stop := Z.min (if stop <? 0 then len + stop else stop) (len - 1) in
  if stop <? start then [] else take (Z.to_nat (stop - start + 1)) (drop (Z.to_nat start) l).

Definition redis_lrange (key : string) (start stop : Z) : M (list string) :=
  send (LRANGE key start stop);;;
  fun w => match keyspace w !! key with
           | None => (w, Returned [])
           | Some (RList l) => (w, Returned (lrange_slice l start stop))
           | Some (RString _) => (w, Raised wrongtype)
           end.

(** ** [uuid.uuid4] and [str] of a UUID *)

(** The variant and version bits [UUID.__init__] sets on its integer. *)
Definition uuid_set_version (i version : Z) : Z :=
  let i := Z.land i (Z.lnot (Z.shiftl 0xc000 48)) in
  let i := Z.lor i (Z.shiftl 0x8000 48) in
  let i := Z.land i (Z.lnot (Z.shiftl 0xf000 64)) in
  Z.lor i (Z.shiftl version 76).

Definition uuid4 : M Z :=
  r <- os_urandom16;;
  ret (uuid_set_version r 4).

Definition hex_digit (d : Z) : ascii :=
  match String.get (Z.to_nat d) "0123456789abcdef" with
  | Some a => a
  | None => "0"%char
  end.

(** ['%0<width>x' % i] for [0 <= i < 16 ^ width] *)
Fixpoint hex_fixed (width : nat) (i : Z) : string :=
  match width with
  | O => ""
  | S w => String (hex_digit (Z.land (Z.shiftr i (4 * Z.of_nat w)) 15)) (hex_fixed w i)
  end.

Definition uuid_str (i : Z) : string :=
  let hex := hex_fixed 32 i in
  substring 0 8 hex ++ "-" ++ substring 8 4 hex ++ "-" ++ substring 12 4 hex
  ++ "-" ++ substring 16 4 hex ++ "-" ++ substring 20 12 hex.

(** ** The program *)

(** [redis.Redis()]: a client of the server at the default address. *)
Inductive Redis : Type := Redis_default.

Record Cache : Type := { _redis : Redis }.

(** [Cache.__init__] *)
Definition Cache_init : M Cache :=
  let self := {| _redis := Redis_default |} in
  redis_flushdb;;;
  ret self.

(** The body of [store] (lines 13 to 25). *)
Definition store (self : Cache) (data : pyval) : M pyval :=
  u <- uuid4;;
  let key := uuid_str u in
  redis_set key data;;;
  ret (PStr key).

(** [Cache.get] *)
Definition get (self : Cache) (key : string) (fn : option (string -> M pyval)) : M pyval :=
  data <- redis_get key;;
  match data, fn with
  | Some d, Some f => f d
  | Some d, None => ret (PBytes d)
  | None, _ => ret PNone
  end.

Definition get_str (self : Cache) (key : string) : M pyval :=
  get self key (Some (fun d => s <- lift (decode_utf8 d);; ret (PStr s))).

Definition get_int (self : Cache) (key : string) : M pyval :=
  get self key (Some (fun d => z <- lift (py_int d);; ret (PInt z))).

(** *** Function objects

    A method is called with [self], the positional arguments after it and
    the keyword arguments. *)
Definition kwargs : Type := list (string * pyval).

Definition method_code : Type := Cache -> list pyval -> kwargs -> M pyval.

Record function : Type := Def {
  qualname : string;        (* the [__qualname__] attribute *)
  code : method_code
}.

(** The objects the module binds to a method name: a function, or the
    object [functools.wraps(wrapped)] returns, which is
    [partial(update_wrapper, wrapped=wrapped, ...)]. *)
Inductive pyobj : Type :=
  | Fn (f : function)
  | WrapsPartial (wrapped : function).

Definition functools_wraps (wrapped : function) : pyobj := WrapsPartial wrapped.

Definition no_qualname : exn :=
  AttributeError "'functools.partial' object has no attribute '__qualname__'".

(** The attribute read [o.__qualname__]: a [partial] object has none. *)
Definition getattr_qualname (o : pyobj) : outcome string :=
  match o with
  | Fn f => Returned (qualname f)
  | WrapsPartial _ => Raised no_qualname
  end.

(** [def store(self, data)] as a function object: [data] comes from the
    one positional or the one keyword argument. *)
Definition store_def : function :=
  Def "Cache.store" (fun self args kw =>
    match args, kw with
    | [data], [] => store self data
    | [], [(name, data)] =>
      if String.eqb name "data" then store self data
      else raise (TypeError "store() got an unexpected keyword argument")
    | _, _ => raise (TypeError "store() takes 2 positional arguments")
    end).

(** *** The decorators

    Each reads [method.__qualname__] first; the wrapper it then builds
    closes over [method], a function since the read succeeded, and takes
    over its [__qualname__] through [functools.wraps(method)]. *)
Definition count_calls (method : pyobj) : outcome function :=
  match method with
  | Fn f =>
    let key := qualname f in
    Returned (Def key (fun self args kw =>
      redis_incr key;;;
      code f self args kw))
  | WrapsPartial _ => Raised no_qualname
  end.

Definition call_history (method : pyobj) : outcome function :=
  match method with
  | Fn f =>
    let key := qualname f in
    Returned (Def key (fun self args kw =>
      let input_key := key ++ ":inputs" in
      let output_key := key ++ ":outputs" in
      rendered <- lift (tuple_str args);;
      redis_rpush input_key (PStr rendered);;;
      output <- code f self args kw;;
      text <- lift (py_str output);;
      redis_rpush output_key (PStr text);;;
      ret output))
  | WrapsPartial _ => Raised no_qualname
  end.

(** Lines 86 and 87 on a function: [call_history(count_calls(f))]. *)
Definition decorate (f : function) : outcome function :=
  match count_calls (Fn f) with
  | Returned counted => call_history (Fn counted)
  | Raised e => Raised e
  end.

(** *** The module body

    What running the module binds [Cache.store] to: the class body leaves
    [functools.wraps(store)] under that name (line 12), then lines 86 and
    87 rebind it. *)
Record module : Type := { Cache_store : function }.

Definition exercise : M module :=
  let class_store := functools_wraps store_def in
  s1 <- lift (count_calls class_store);;
  s2 <- lift (call_history (Fn s1));;
  ret {| Cache_store := s2 |}.

(** [replay] *)
Fixpoint replay_lines (key : string) (pairs : list (string * string)) : M unit :=
  match pairs with
  | [] => ret tt
  | (input_val, output_val) :: rest =>
    i <- lift (decode_utf8 input_val);;
    o <- lift (decode_utf8 output_val);;
    print (key ++ "(*" ++ i ++ ") -> " ++ o);;;
    replay_lines key rest
  end.

Definition replay (method : pyobj) : M unit :=
  key <- lift (getattr_qualname method);;
  (* redis_client = redis.Redis(): one more client of the same server *)
  let input_key := key ++ ":inputs" in
  let output_key := key ++ ":outputs" in
  inputs <- redis_lrange input_key 0 (-1);;
  outputs <- redis_lrange output_key 0 (-1);;
  print (key ++ " was called " ++ int_repr (Z.of_nat (length inputs)) ++ " times:");;;
  replay_lines key (zip inputs outputs).

(** *** Clients of the module

    A client runs the module first, then builds a cache and calls the
    [store] the module has bound. *)
Definition call_store (m : module) (self : Cache) (data : pyval) : M pyval :=
  code (Cache_store m) self [data] [].

Fixpoint store_each (m : module) (self : Cache) (values : list pyval) : M (list pyval) :=
  match values with
  | [] => ret []
  | v :: rest =>
    k <- call_store m self v;;
    ks <- store_each m self rest;;
    ret (k :: ks)
  end.

(** [cache = Cache()], then [cache.store(v)] for each value in turn. *)
Definition store_all (values : list pyval) : M (list pyval) :=
  m <- exercise;;
  cache <- Cache_init;;
  store_each m cache values.

(** [cache = Cache()], then [rd(cache, cache.store(data))]. *)
Definition store_and_read (data : pyval) (rd : Cache -> string -> M pyval) : M pyval :=
  m <- exercise;;
  cache <- Cache_init;;
  k <- call_store m cache data;;
  match k with
  | PStr key => rd cache key
  | _ => raise (TypeError "the key is not a str")
  end.

End Program.

(** ** Reading the state *)

(** The whole list under [key] as [LRANGE key 0 -1] returns it: empty for
    a key that does not exist, nothing for a key that holds a string. *)
Definition log_read (ks : gmap string rvalue) (key : string) : option (list string) :=
  match ks !! key with
  | None => Some []
  | Some (RList l) => Some l
  | Some (RString _) => None
  end.

(** The counter under [key] as [INCRBY] reads it: zero for a key that
    does not exist. *)
Definition counter_read (ks : gmap string rvalue) (key : string) : option Z :=
  match ks !! key with
  | None => Some 0
  | Some (RString v) => string2ll v
  | Some (RList _) => None
  end.

(** The key [store] draws in state [w]. *)
Definition next_key (w : world) : string :=
  uuid_str (uuid_set_version (Z.of_N (urandom w (drawn w) mod 2 ^ 128)) 4).

(** The lines [replay] prints. *)
Definition count_line (key : string) (n : nat) : string :=
  key ++ " was called " ++ int_repr (Z.of_nat n) ++ " times:".

Definition call_line (key input output : string) : string :=
  key ++ "(*" ++ input ++ ") -> " ++ output.

Definition transcript (key : string) (inputs outputs : list string) : list string :=
  zip_with (call_line key) inputs outputs.

Definition both_utf8 (p : string * string) : bool :=
  utf8_valid p.1 && utf8_valid p.2.

(** ** Sample data *)

Definition no_random : nat -> N := fun _ => 0%N.

Definition fresh_world : world := World ∅ [] [] no_random 0.

(** A keyspace where the counter of [Cache.store] and its two logs
    disagree. *)
Definition skewed_world : world :=
  World (<["Cache.store" := RString "5"]>
         (<["Cache.store:inputs" := RList ["('a',)"; "('b',)"]]>
          (<["Cache.store:outputs" := RList ["k1"]]> ∅)))
        [] [] no_random 0.

Definition failing_converter : string -> M pyval :=
  fun _ => print "converted";;; raise (ValueError "converter called").

(** Renderings good enough for the samples, which hold plain ASCII text
    and no float: quotes around the text. *)
Definition ascii_repr : PyRepr := {|
  str_repr s := "'" ++ s ++ "'";
  bytes_repr b := "b'" ++ b ++ "'";
  float_repr _ := "0.5"
|}.

Definition a_cache : Cache := {| _redis := Redis_default |}.

(** A method object named [Cache.store], as [replay] is handed one. *)
Definition named_store : function := @store_def ascii_repr.

(** ** Compositions and more sample data *)

Section Compositions.
Context `{PyRepr}.

(** [rd(self, self.store(data))], [store] being the function of lines 13
    to 25. *)
Definition store_then_read
    (self : Cache) (data : pyval) (rd : Cache -> string -> M pyval) : M pyval :=
  k <- store self data;;
  match k with
  | PStr key => rd self key
  | _ => raise (TypeError "the key is not a str")
  end.

(** [self.store(first)], [self.store(second)], then [self.get(k)] for the
    first key. *)
Definition store_twice_read_first (self : Cache) (first second : pyval) : M pyval :=
  k <- store self first;;
  store self second;;;
  match k with
  | PStr key => get self key None
  | _ => raise (TypeError "the key is not a str")
  end.

End Compositions.

(** A random source whose draws all differ. *)
Definition counting_random : nat -> N := fun n => N.of_nat n.

Definition counting_world : world := World ∅ [] [] counting_random 0.

Definition not_utf8 : string := String (ascii_of_nat 255) "".

(** The inputs key of [Cache.store] holds a string, not a list. *)
Definition clobbered_world : world :=
  World (<["Cache.store:inputs" := RString "x"]> ∅) [] [] no_random 0.


(** The counter of [Cache.store] holds text that is no number. *)
Definition miscounted_world : world :=
  World (<["Cache.store" := RString "many"]> ∅) [] [] no_random 0.

(** A function whose result tells how many keyword arguments it got. *)
Definition tally_method : function :=
  Def "Cache.tally" (fun _ _ kw => ret (PInt (Z.of_nat (length kw)))).

(** The digit 1 written [n] times. *)
Fixpoint ones (n : nat) : string :=
  match n with
  | O => ""
  | S m => String "1" (ones m)
  end.

(** The digit 0 written [n] times. *)
Fixpoint zeros (n : nat) : Decimal.uint :=
  match n with
  | O => Decimal.Nil
  | S m => Decimal.D0 (zeros m)
  end.

(** The smallest integer of 4301 digits, a one and 4300 zeros, and a
    function returning it. *)
Definition huge_int : Z := Z.of_N (Pos.of_uint (Decimal.D1 (zeros 4300))).

Definition huge_method : function :=
  Def "Cache.huge" (fun _ _ _ => ret (PInt huge_int)).

(** A function that raises whatever it is given. *)
Definition failing_method : function :=
  Def "Cache.fail" (fun _ _ _ => raise (ValueError "no")).

(** ** Properties *)

(** Unfolds the plumbing of [M] and the program's definitions down to
    the lookups in the keyspace. *)
Ltac run_M :=
  cbv beta iota zeta delta
    [bind ret raise lift send print with_keyspace
     redis_flushdb redis_set redis_get redis_incr redis_rpush redis_lrange
     Cache_init get get_str get_int replay exercise
     getattr_qualname count_calls call_history functools_wraps
     qualname code Cache_store];
  cbn [keyspace wire stdout urandom drawn fst snd].

Section Properties.
Context `{PyRepr}.

(** *** The monad and the server commands *)

Lemma bind_returned {A B} (m : M A) (k : A -> M B) (w w1 : world) (a : A) :
  m w = (w1, Returned a) -> bind m k w = k a w1.
Proof. intros Hm. unfold bind. now rewrite Hm. Qed.

Lemma bind_raised {A B} (m : M A) (k : A -> M B) (w w1 : world) (e : exn) :
  m w = (w1, Raised e) -> bind m k w = (w1, Raised e).
Proof. intros Hm. unfold bind. now rewrite Hm. Qed.

Lemma lrange_slice_all (l : list string) : lrange_slice l 0 (-1) = l.
Proof.
  unfold lrange_slice. cbn [Z.ltb Z.compare].
  replace (Z.min (Z.of_nat (length l) + -1) (Z.of_nat (length l) - 1))
    with (Z.of_nat (length l) - 1) by lia.
  destruct l as [|x l]; [reflexivity|].
  destruct (Z.ltb_spec (Z.of_nat (length (x :: l)) - 1) 0) as [Hlt|_].
  - cbn [length] in Hlt. lia.
  - replace (Z.to_nat (Z.of_nat (length (x :: l)) - 1 - 0 + 1)) with (length (x :: l)) by lia.
    change (Z.to_nat 0) with 0%nat. rewrite drop_0. apply firstn_all.
Qed.

(** [LRANGE key 0 -1] returns what [log_read] shows, and changes nothing
    but the list of commands received. *)
Lemma redis_lrange_all (key : string) (w : world) (l : list string) :
  log_read (keyspace w) key = Some l ->
  redis_lrange key 0 (-1) w
  = (World (keyspace w) (wire w ++ [LRANGE key 0 (-1)]) (stdout w) (urandom w) (drawn w),
     Returned l).
Proof.
  unfold log_read. run_M.
  destruct (keyspace w !! key) as [[v|l']|]; intros Hl; simplify_eq.
  - now rewrite lrange_slice_all.
  - reflexivity.
Qed.

(** *** Decimal text *)

Lemma digits_acc_uint (d : Decimal.uint) (acc : Z) :
  digits_acc (NilEmpty.string_of_uint d) acc true = Some (horner d acc).
Proof.
  revert acc. induction d; intros acc; cbn [NilEmpty.string_of_uint horner];
    [reflexivity | ..]; cbn [digits_acc]; apply IHd.
Qed.

Lemma digits_acc_uint_start (d : Decimal.uint) :
  d <> Decimal.Nil ->
  digits_acc (NilEmpty.string_of_uint d) 0 false = Some (horner d 0).
Proof.
  destruct d; intros Hd; [congruence | ..];
    cbn [NilEmpty.string_of_uint horner digits_acc]; apply digits_acc_uint.
Qed.

Lemma horner_revapp (d d' : Decimal.uint) :
  Z.of_N (DecimalPos.Unsigned.of_lu (Decimal.revapp d d'))
  = horner d (Z.of_N (DecimalPos.Unsigned.of_lu d')).
Proof.
  revert d'. induction d; intros d'; cbn [Decimal.revapp horner];
    [reflexivity | ..]; rewrite IHd; f_equal;
    cbn [DecimalPos.Unsigned.of_lu]; lia.
Qed.

Lemma horner_to_uint (p : positive) : horner (Pos.to_uint p) 0 = Z.pos p.
Proof.
  change 0 with (Z.of_N (DecimalPos.Unsigned.of_lu Decimal.Nil)).
  rewrite <- horner_revapp.
  change (Decimal.revapp (Pos.to_uint p) Decimal.Nil) with (Decimal.rev (Pos.to_uint p)).
  rewrite <- DecimalPos.Unsigned.of_uint_alt, DecimalPos.Unsigned.of_to.
  reflexivity.
Qed.

Lemma signed_digits_uint (d : Decimal.uint) :
  signed_digits (NilEmpty.string_of_uint d) = digits_acc (NilEmpty.string_of_uint d) 0 false.
Proof. destruct d; reflexivity. Qed.

Lemma string_of_pos (p : positive) :
  NilZero.string_of_uint (Pos.to_uint p) = NilEmpty.string_of_uint (Pos.to_uint p).
Proof.
  pose proof (DecimalPos.Unsigned.to_uint_nonnil p) as Hp.
  now destruct (Pos.to_uint p).
Qed.

(** Reading the decimal text of an integer gives the integer back. *)
Lemma signed_digits_int_repr (z : Z) : signed_digits (int_repr z) = Some z.
Proof.
  unfold int_repr. destruct z as [|p|p]; [reflexivity | ..];
    cbn [Z.to_int NilZero.string_of_int]; rewrite string_of_pos.
  - rewrite signed_digits_uint, digits_acc_uint_start
      by apply DecimalPos.Unsigned.to_uint_nonnil.
    now rewrite horner_to_uint.
  - cbn [signed_digits]. rewrite digits_acc_uint_start
      by apply DecimalPos.Unsigned.to_uint_nonnil.
    now rewrite horner_to_uint.
Qed.

Lemma strip_uint (d : Decimal.uint) :
  lstrip (NilEmpty.string_of_uint d) = NilEmpty.string_of_uint d
  /\ rstrip (NilEmpty.string_of_uint d) = NilEmpty.string_of_uint d.
Proof.
  split; [now destruct d|].
  induction d; cbn [NilEmpty.string_of_uint rstrip]; [reflexivity | ..];
    rewrite IHd; now destruct (NilEmpty.string_of_uint d).
Qed.

Lemma strip_int_repr (z : Z) : rstrip (lstrip (int_repr z)) = int_repr z.
Proof.
  unfold int_repr. destruct z as [|p|p]; [reflexivity | ..];
    cbn [Z.to_int NilZero.string_of_int]; rewrite string_of_pos;
    destruct (strip_uint (Pos.to_uint p)) as [Hl Hr].
  - now rewrite Hl, Hr.
  - change (lstrip (String "-" ?s)) with (String "-" s).
    cbn [rstrip]. rewrite Hr.
    now destruct (NilEmpty.string_of_uint (Pos.to_uint p)).
Qed.

Lemma run_digits_uint (d : Decimal.uint) (count : N) :
  run_digits (NilEmpty.string_of_uint d) true count
  = Some (count + N.of_nat (String.length (NilEmpty.string_of_uint d)))%N.
Proof.
  revert count. induction d; intros count; cbn [NilEmpty.string_of_uint];
    [cbn; now rewrite N.add_0_r | ..];
    cbn [run_digits String.length]; rewrite IHd; f_equal; lia.
Qed.

Lemma run_digits_uint_start (d : Decimal.uint) :
  d <> Decimal.Nil ->
  run_digits (NilEmpty.string_of_uint d) false 0
  = Some (N.of_nat (String.length (NilEmpty.string_of_uint d))).
Proof.
  destruct d; intros Hd; [congruence | ..];
    cbn [NilEmpty.string_of_uint run_digits String.length];
    rewrite run_digits_uint; f_equal; lia.
Qed.

Lemma unsigned_part_uint (d : Decimal.uint) :
  unsigned_part (NilEmpty.string_of_uint d) = NilEmpty.string_of_uint d.
Proof. now destruct d. Qed.

(** The run of digits [int] counts in the text of an integer is its
    number of digits. *)
Lemma run_digits_int_repr (z : Z) :
  run_digits (unsigned_part (int_repr z)) false 0 = Some (int_digits z).
Proof.
  unfold int_digits, int_repr. destruct z as [|p|p]; [reflexivity | ..];
    [change (Z.abs (Z.pos p)) with (Z.pos p) | change (Z.abs (Z.neg p)) with (Z.pos p)];
    cbn [Z.to_int NilZero.string_of_int]; rewrite string_of_pos.
  - rewrite unsigned_part_uint.
    apply run_digits_uint_start, DecimalPos.Unsigned.to_uint_nonnil.
  - cbn [unsigned_part].
    apply run_digits_uint_start, DecimalPos.Unsigned.to_uint_nonnil.
Qed.

(** [int] inverts [repr] on the integers [repr] renders. *)
Lemma py_int_int_repr (z : Z) :
  (int_digits z <=? int_max_str_digits)%N = true -> py_int (int_repr z) = Returned z.
Proof.
  intros Hz. unfold py_int. cbv zeta.
  rewrite strip_int_repr, run_digits_int_repr, signed_digits_int_repr.
  now rewrite (proj2 (N.ltb_ge _ _) (proj1 (N.leb_le _ _) Hz)).
Qed.

Lemma int_str_returned (z : Z) (text : string) :
  int_str z = Returned text ->
  text = int_repr z /\ (int_digits z <=? int_max_str_digits)%N = true.
Proof.
  unfold int_str. destruct (int_digits z <=? int_max_str_digits)%N; intros Ht;
    now simplify_eq.
Qed.

Lemma string2ll_int_repr (z : Z) :
  - 2 ^ 63 <= z < 2 ^ 63 -> string2ll (int_repr z) = Some z.
Proof.
  intros Hz. unfold string2ll. rewrite signed_digits_int_repr.
  now rewrite decide_True.
Qed.

(** *** Keys drawn by [store] *)

(** The text of a UUID has 36 characters, so it is none of the three keys
    the decorators use for [Cache.store]. *)
Lemma uuid_str_length (i : Z) : String.length (uuid_str i) = 36%nat.
Proof. reflexivity. Qed.

Lemma uuid_str_not_short (i : Z) (key : string) :
  (String.length key < 36)%nat -> key <> uuid_str i.
Proof. intros Hlen ->. rewrite uuid_str_length in Hlen. lia. Qed.

Lemma hex_digit_ascii (d : Z) : (byte_val (hex_digit d) <? 0x80)%N = true.
Proof.
  unfold hex_digit. generalize (Z.to_nat d). intros n.
  do 17 (destruct n as [|n]; [reflexivity|]). reflexivity.
Qed.

Lemma utf8_valid_ascii_cons (a : ascii) (r : string) :
  (byte_val a <? 0x80)%N = true -> utf8_valid (String a r) = utf8_valid r.
Proof. intros Ha. cbn [utf8_valid]. now rewrite Ha. Qed.

(** The text of a UUID is ASCII, hence UTF-8. *)
Lemma uuid_str_utf8 (i : Z) : utf8_valid (uuid_str i) = true.
Proof.
  cbv beta iota zeta delta [uuid_str hex_fixed substring String.append].
  repeat (rewrite utf8_valid_ascii_cons by (apply hex_digit_ascii || reflexivity)).
  reflexivity.
Qed.

(** *** [Cache.__init__] and [Cache.get] *)

(** C8: constructing a [Cache] sends the one command [FLUSHDB]; the
    keyspace is empty afterwards (no key is left), and nothing else of the
    state changes: nothing is printed and no randomness is drawn. *)
Theorem Cache_init_clears_keyspace (w : world) :
  exists self : Cache,
    Cache_init w
    = (World ∅ (wire w ++ [FLUSHDB]) (stdout w) (urandom w) (drawn w), Returned self)
    /\ forall key : string, keyspace (Cache_init w).1 !! key = None.
Proof.
  exists {| _redis := Redis_default |}. split; [reflexivity|].
  intros key. cbn. apply lookup_empty.
Qed.

(** C3: when the key is absent from the keyspace, [get] returns [None]
    whatever conversion function it is given, and that function is not
    run: the state afterwards is the state before with only the [GET]
    command added to the commands received. *)
Theorem get_miss_returns_None
    (self : Cache) (key : string) (fn : option (string -> M pyval)) (w : world) :
  keyspace w !! key = None ->
  get self key fn w
  = (World (keyspace w) (wire w ++ [GET key]) (stdout w) (urandom w) (drawn w),
     Returned PNone).
Proof.
  intros Hmiss. run_M. now rewrite Hmiss.
Qed.

(** *** [replay] *)

(** The loop of [replay] only prints: it leaves the keyspace and the
    commands received as they were, whether it finishes or raises. *)
Lemma replay_lines_prints (key : string) (pairs : list (string * string)) (w : world) :
  exists more : list string,
    (replay_lines key pairs w).1
    = World (keyspace w) (wire w) (stdout w ++ more) (urandom w) (drawn w).
Proof.
  revert w. induction pairs as [|[i o] rest IH]; intros w.
  - exists []. cbn. rewrite app_nil_r. now destruct w.
  - cbn [replay_lines]. unfold decode_utf8.
    destruct (utf8_valid i) eqn:Hi; run_M;
      [|exists []; cbn; rewrite app_nil_r; now destruct w].
    destruct (utf8_valid o) eqn:Ho; run_M;
      [|exists []; cbn; rewrite app_nil_r; now destruct w].
    match goal with |- context [replay_lines key rest ?w1] =>
      destruct (IH w1) as [more Hmore];
      destruct (replay_lines key rest w1) as [w2 [[]|e]] eqn:Hrun
    end; cbn [fst snd keyspace wire stdout urandom drawn] in *; subst w2;
      eexists; rewrite <- app_assoc; reflexivity.
Qed.

(** When every paired entry is UTF-8, the loop prints one line per pair
    and returns. *)
Lemma replay_lines_all (key : string) (pairs : list (string * string)) (w : world) :
  forallb both_utf8 pairs = true ->
  replay_lines key pairs w
  = (World (keyspace w) (wire w)
       (stdout w ++ map (fun p => call_line key p.1 p.2) pairs) (urandom w) (drawn w),
     Returned tt).
Proof.
  revert w. induction pairs as [|[i o] rest IH]; intros w Hok.
  - cbn. rewrite app_nil_r. now destruct w.
  - cbn [forallb] in Hok. apply andb_prop in Hok as [Hio Hrest].
    apply andb_prop in Hio as [Hi Ho]. cbn [fst snd] in Hi, Ho.
    cbn [replay_lines]. unfold decode_utf8. rewrite Hi, Ho. run_M.
    rewrite IH by exact Hrest. cbn [keyspace wire stdout urandom drawn map fst snd].
    rewrite <- app_assoc. reflexivity.
Qed.

Lemma transcript_as_map (key : string) (inputs outputs : list string) :
  map (fun p => call_line key p.1 p.2) (zip inputs outputs) = transcript key inputs outputs.
Proof.
  unfold transcript. revert outputs.
  induction inputs as [|i inputs IH]; intros [|o outputs]; cbn; try reflexivity.
  now rewrite IH.
Qed.


(** C7: given a method object with a [__qualname__], when the two logs
    can be read and their paired entries are UTF-8, [replay] returns
    after printing the count line followed by the transcript, whose nth
    line pairs the nth input with the nth output; the transcript has
    [min (length inputs) (length outputs)] lines, and with no recorded call
    the only line printed reports zero calls.  The keyspace is left as it
    was. *)
Theorem replay_prints_transcript
    (f : function) (w : world) (inputs outputs : list string) :
  log_read (keyspace w) (qualname f ++ ":inputs") = Some inputs ->
  log_read (keyspace w) (qualname f ++ ":outputs") = Some outputs ->
  forallb both_utf8 (zip inputs outputs) = true ->
  exists w' : world,
    replay (Fn f) w = (w', Returned tt)
    /\ keyspace w' = keyspace w
    /\ stdout w'
       = (stdout w ++ count_line (qualname f) (length inputs)
                      :: transcript (qualname f) inputs outputs)%list
    /\ length (transcript (qualname f) inputs outputs)
       = Nat.min (length inputs) (length outputs)
    /\ (forall (n : nat) (i o : string),
          inputs !! n = Some i -> outputs !! n = Some o ->
          transcript (qualname f) inputs outputs !! n = Some (call_line (qualname f) i o))
    /\ (inputs = [] ->
        stdout w' = (stdout w ++ [qualname f +:+ " was called 0 times:"])%list).
Proof.
  intros Hin Hout Hutf.
  eexists. split; [|split; [|split; [|split; [|split]]]].
  - unfold replay, getattr_qualname, lift.
    erewrite bind_returned by reflexivity.
    erewrite bind_returned by (apply redis_lrange_all; exact Hin).
    erewrite bind_returned
      by (apply redis_lrange_all; cbn [keyspace]; exact Hout).
    erewrite bind_returned by reflexivity.
    rewrite replay_lines_all by exact Hutf.
    cbn [keyspace wire stdout urandom drawn]. rewrite transcript_as_map.
    reflexivity.
  - reflexivity.
  - cbn [stdout]. rewrite <- app_assoc. reflexivity.
  - unfold transcript. rewrite length_zip_with. reflexivity.
  - intros n i o Hi Ho. unfold transcript. rewrite lookup_zip_with, Hi, Ho. reflexivity.
  - intros ->. cbn [stdout]. rewrite <- app_assoc. reflexivity.
Qed.

(** C9: whenever the two logs can be read, the first line [replay] prints
    carries the length of the inputs log; the only commands it sends are
    the two [LRANGE], so the counter under the method's name is never
    read and whatever it holds has no part in the line. *)
Theorem replay_count_is_inputs_length
    (f : function) (w : world) (inputs outputs : list string) :
  log_read (keyspace w) (qualname f ++ ":inputs") = Some inputs ->
  log_read (keyspace w) (qualname f ++ ":outputs") = Some outputs ->
  exists more : list string,
    stdout (replay (Fn f) w).1
    = (stdout w
       ++ (qualname f +:+ " was called " +:+ int_repr (Z.of_nat (length inputs))
           +:+ " times:") :: more)%list
    /\ wire (replay (Fn f) w).1
       = (wire w ++ [LRANGE (qualname f +:+ ":inputs") 0 (-1);
                     LRANGE (qualname f +:+ ":outputs") 0 (-1)])%list.
Proof.
  intros Hin Hout.
  unfold replay, getattr_qualname, lift.
  erewrite bind_returned by reflexivity.
  erewrite bind_returned by (apply redis_lrange_all; exact Hin).
  erewrite bind_returned
    by (apply redis_lrange_all; cbn [keyspace]; exact Hout).
  erewrite bind_returned by reflexivity.
  match goal with |- context [replay_lines ?k ?p ?w1] =>
    destruct (replay_lines_prints k p w1) as [more Hmore]
  end.
  exists more. rewrite Hmore. cbn [keyspace wire stdout urandom drawn].
  rewrite <- !app_assoc. split; reflexivity.
Qed.

(** *** The decorators on a function *)

(** Appending to a log that can be read extends it by the entry. *)
Lemma redis_rpush_log (key entry : string) (w : world) (l : list string) :
  log_read (keyspace w) key = Some l ->
  exists n : Z,
    redis_rpush key (PStr entry) w
    = (World (<[key := RList (l ++ [entry])]> (keyspace w)) (wire w ++ [RPUSH key entry])
         (stdout w) (urandom w) (drawn w),
       Returned n).
Proof.
  unfold log_read. run_M. cbn [encode_value].
  destruct (keyspace w !! key) as [[v|l']|]; intros Hl; simplify_eq;
    eexists; reflexivity.
Qed.

Lemma log_read_insert (ks : gmap string rvalue) (key : string) (l : list string) :
  log_read (<[key := RList l]> ks) key = Some l.
Proof. unfold log_read. now rewrite lookup_insert_eq. Qed.

Lemma log_read_empty (key : string) : log_read ∅ key = Some [].
Proof. unfold log_read. now rewrite lookup_empty. Qed.

Lemma log_read_insert_ne (ks : gmap string rvalue) (key key' : string) (v : rvalue) :
  key <> key' -> log_read (<[key := v]> ks) key' = log_read ks key'.
Proof. intros Hne. unfold log_read. now rewrite lookup_insert_ne. Qed.

(** C10: [call_history] applied to a function gives a wrapper under the
    same name.  A call of it whose [str(args)] can be rendered, whatever
    the keyword arguments, first appends [str(args)] and nothing else to
    the inputs log, reaching a state [w1] the keyword arguments have no
    part in; from there it runs the wrapped function on the same [self],
    [args] and keyword arguments, then logs the output.  Calls that
    differ only in their keyword arguments thus append the same entry. *)
Theorem call_history_omits_kwargs
    (f : function) (self : Cache) (args : list pyval) (w : world)
    (inputs : list string) (entry : string) :
  tuple_str args = Returned entry ->
  log_read (keyspace w) (qualname f ++ ":inputs") = Some inputs ->
  exists g : function,
    call_history (Fn f) = Returned g
    /\ qualname g = qualname f
    /\ let w1 :=
         World (<[qualname f ++ ":inputs" := RList (inputs ++ [entry])]> (keyspace w))
           (wire w ++ [RPUSH (qualname f +:+ ":inputs") entry])
           (stdout w) (urandom w) (drawn w) in
       forall kw : kwargs,
         code g self args kw w
         = (output <- code f self args kw;;
            text <- lift (py_str output);;
            redis_rpush (qualname f ++ ":outputs") (PStr text);;;
            ret output) w1.
Proof.
  intros Hentry Hin.
  destruct (redis_rpush_log _ entry w inputs Hin) as [n Hpush].
  eexists. split; [reflexivity|]. split; [reflexivity|].
  intros w1 kw. cbn [code].
  erewrite bind_returned by (unfold lift; rewrite Hentry; reflexivity).
  erewrite bind_returned by exact Hpush. reflexivity.
Qed.

(** *** One call of the decorated function *)

Lemma redis_incr_counter (key : string) (w : world) (c : Z) :
  counter_read (keyspace w) key = Some c -> c + 1 < 2 ^ 63 ->
  redis_incr key w
  = (World (<[key := RString (int_repr (c + 1))]> (keyspace w)) (wire w ++ [INCRBY key 1])
       (stdout w) (urandom w) (drawn w),
     Returned (c + 1)).
Proof.
  unfold counter_read. run_M.
  destruct (keyspace w !! key) as [[v|l]|]; intros Hc Hmax; simplify_eq.
  - rewrite Hc. now rewrite decide_True.
  - reflexivity.
Qed.

Lemma counter_read_insert (ks : gmap string rvalue) (key : string) (c : Z) :
  - 2 ^ 63 <= c < 2 ^ 63 ->
  counter_read (<[key := RString (int_repr c)]> ks) key = Some c.
Proof.
  intros Hc. unfold counter_read. rewrite lookup_insert_eq.
  now apply string2ll_int_repr.
Qed.

Lemma counter_read_empty (key : string) : counter_read ∅ key = Some 0.
Proof. unfold counter_read. now rewrite lookup_empty. Qed.

Lemma counter_read_insert_ne (ks : gmap string rvalue) (key key' : string) (v : rvalue) :
  key <> key' -> counter_read (<[key := v]> ks) key' = counter_read ks key'.
Proof. intros Hne. unfold counter_read. now rewrite lookup_insert_ne. Qed.

Lemma counter_read_range (ks : gmap string rvalue) (key : string) (c : Z) :
  counter_read ks key = Some c -> - 2 ^ 63 <= c < 2 ^ 63.
Proof.
  unfold counter_read, string2ll.
  destruct (ks !! key) as [[v|l]|]; intros Hc; simplify_eq; [|lia].
  destruct (signed_digits v); [|discriminate].
  case_decide; simplify_eq. tauto.
Qed.

Lemma store_run (self : Cache) (data : pyval) (enc : string) (w : world) :
  encode_value data = Returned enc ->
  store self data w
  = (World (<[next_key w := RString enc]> (keyspace w)) (wire w ++ [SET (next_key w) enc])
       (stdout w) (urandom w) (S (drawn w)),
     Returned (PStr (next_key w))).
Proof.
  intros Henc. unfold store, uuid4, os_urandom16. run_M. rewrite Henc. reflexivity.
Qed.


Lemma decorate_store_def :
  exists g : function, decorate store_def = Returned g /\ qualname g = "Cache.store".
Proof. eexists. split; reflexivity. Qed.

(** One call of [call_history(count_calls(store))] with the one positional
    argument [data], which the client can encode and [str] can render,
    from a state where the counter and the two logs can be read: the four
    commands go out in the order input log, counter, [SET], output log;
    the key drawn is returned. *)
Lemma decorated_store_call
    (g : function) (self : Cache) (data : pyval) (enc entry : string) (w : world)
    (c : Z) (ins outs : list string) :
  decorate store_def = Returned g ->
  encode_value data = Returned enc ->
  tuple_str [data] = Returned entry ->
  counter_read (keyspace w) "Cache.store" = Some c -> c + 1 < 2 ^ 63 ->
  log_read (keyspace w) "Cache.store:inputs" = Some ins ->
  log_read (keyspace w) "Cache.store:outputs" = Some outs ->
  code g self [data] [] w
  = (World
       (<["Cache.store:outputs" := RList (outs ++ [next_key w])]>
          (<[next_key w := RString enc]>
             (<["Cache.store" := RString (int_repr (c + 1))]>
                (<["Cache.store:inputs" := RList (ins ++ [entry])]>
                   (keyspace w)))))
       (wire w ++ [RPUSH "Cache.store:inputs" entry;
                   INCRBY "Cache.store" 1;
                   SET (next_key w) enc;
                   RPUSH "Cache.store:outputs" (next_key w)])
       (stdout w) (urandom w) (S (drawn w)),
     Returned (PStr (next_key w))).
Proof.
  intros Hg Henc Hentry Hc Hmax Hins Houts.
  cbv [decorate count_calls call_history store_def qualname code] in Hg.
  injection Hg as <-. cbn [code].
  destruct (redis_rpush_log "Cache.store:inputs" entry w ins Hins)
    as [n1 Hpush1].
  change ("Cache.store" ++ ":inputs") with "Cache.store:inputs".
  change ("Cache.store" ++ ":outputs") with "Cache.store:outputs".
  erewrite bind_returned by (unfold lift; rewrite Hentry; reflexivity).
  erewrite bind_returned by exact Hpush1.
  erewrite bind_returned; cycle 1.
  { erewrite bind_returned; cycle 1.
    { apply redis_incr_counter with (c := c); [|exact Hmax].
      cbn [keyspace]. now rewrite counter_read_insert_ne. }
    apply store_run, Henc. }
  cbn [keyspace wire stdout urandom drawn].
  cbn [py_str]. erewrite bind_returned by reflexivity.
  match goal with |- bind (redis_rpush ?k (PStr ?e)) _ ?w3 = _ =>
    destruct (redis_rpush_log k e w3 outs) as [n2 Hpush2]
  end.
  { cbn [keyspace].
    rewrite log_read_insert_ne
      by (intros Heq; symmetry in Heq; revert Heq; apply uuid_str_not_short; cbn; lia).
    rewrite !log_read_insert_ne by done. exact Houts. }
  erewrite bind_returned by exact Hpush2.
  unfold ret. cbn [keyspace wire stdout urandom drawn]. unfold next_key.
  cbn [keyspace wire stdout urandom drawn].
  rewrite <- !app_assoc. reflexivity.
Qed.

(** What the client can encode, [str] can render inside a tuple. *)
Lemma encoded_is_rendered (v : pyval) (enc : string) :
  encode_value v = Returned enc -> exists entry : string, tuple_str [v] = Returned entry.
Proof.
  destruct v as [|s|b|z|f]; cbn [encode_value]; intros Henc; try discriminate;
    unfold tuple_str; cbn [py_reprs py_repr]; try (eexists; reflexivity).
  rewrite Henc. eexists; reflexivity.
Qed.

Lemma uuid_key_ne (w : world) (key : string) :
  (String.length key < 36)%nat -> next_key w <> key.
Proof. intros Hlen Heq. symmetry in Heq. revert Heq. now apply uuid_str_not_short. Qed.

(** The state after one call, read back through the counter and the two
    logs. *)
Lemma decorated_store_call_reads
    (g : function) (self : Cache) (data : pyval) (enc entry : string) (w : world)
    (c : Z) (ins outs : list string) :
  decorate store_def = Returned g ->
  encode_value data = Returned enc ->
  tuple_str [data] = Returned entry ->
  counter_read (keyspace w) "Cache.store" = Some c -> c + 1 < 2 ^ 63 ->
  log_read (keyspace w) "Cache.store:inputs" = Some ins ->
  log_read (keyspace w) "Cache.store:outputs" = Some outs ->
  exists w' : world,
    code g self [data] [] w = (w', Returned (PStr (next_key w)))
    /\ counter_read (keyspace w') "Cache.store" = Some (c + 1)
    /\ log_read (keyspace w') "Cache.store:inputs" = Some (ins ++ [entry])%list
    /\ log_read (keyspace w') "Cache.store:outputs" = Some (outs ++ [next_key w])%list
    /\ stdout w' = stdout w.
Proof.
  intros Hg Henc Hentry Hc Hmax Hins Houts.
  pose proof (counter_read_range _ _ _ Hc) as Hrange.
  eexists. split; [|split; [|split; [|split]]].
  - eapply decorated_store_call; eassumption.
  - cbn [keyspace].
    rewrite counter_read_insert_ne by done.
    rewrite counter_read_insert_ne by (apply uuid_key_ne; cbn; lia).
    apply counter_read_insert. lia.
  - cbn [keyspace].
    rewrite log_read_insert_ne by done.
    rewrite log_read_insert_ne by (apply uuid_key_ne; cbn; lia).
    rewrite log_read_insert_ne by done.
    apply log_read_insert.
  - cbn [keyspace]. apply log_read_insert.
  - reflexivity.
Qed.

(** Any number of calls in a row, each with a value the client can
    encode: the counter grows by the number of calls, the inputs log by
    the rendered arguments, the outputs log by the keys returned, in
    order; nothing is printed. *)
Lemma decorated_store_each
    (g : function) (self : Cache) (values : list pyval) (entries : list string)
    (w : world) (c : Z) (ins outs : list string) :
  decorate store_def = Returned g ->
  Forall (fun v => exists enc : string, encode_value v = Returned enc) values ->
  Forall2 (fun v entry => tuple_str [v] = Returned entry) values entries ->
  counter_read (keyspace w) "Cache.store" = Some c ->
  c + Z.of_nat (length values) < 2 ^ 63 ->
  log_read (keyspace w) "Cache.store:inputs" = Some ins ->
  log_read (keyspace w) "Cache.store:outputs" = Some outs ->
  exists (w' : world) (keys : list string),
    store_each {| Cache_store := g |} self values w = (w', Returned (map PStr keys))
    /\ length keys = length values
    /\ counter_read (keyspace w') "Cache.store" = Some (c + Z.of_nat (length values))
    /\ log_read (keyspace w') "Cache.store:inputs" = Some (ins ++ entries)%list
    /\ log_read (keyspace w') "Cache.store:outputs" = Some (outs ++ keys)%list
    /\ Forall (fun key => utf8_valid key = true) keys
    /\ stdout w' = stdout w.
Proof.
  intros Hg Hvals Hentries. revert w c ins outs.
  induction Hentries as [|v entry values entries Hentry _ IH];
    intros w c ins outs Hc Hmax Hins Houts.
  - exists w, []. cbn [store_each length map]. rewrite !app_nil_r, Z.add_0_r.
    repeat split; try assumption. constructor.
  - apply Forall_cons in Hvals as [[enc Henc] Hvals]. cbn [length] in Hmax.
    destruct (decorated_store_call_reads g self v enc entry w c ins outs Hg Henc Hentry Hc
                ltac:(lia) Hins Houts)
      as (w1 & Hcall & Hc1 & Hins1 & Houts1 & Hquiet1).
    destruct (IH Hvals w1 (c + 1) _ _ Hc1 ltac:(lia) Hins1 Houts1)
      as (w' & keys & Hrun & Hlen & Hc' & Hins' & Houts' & Hutf & Hquiet).
    exists w', (next_key w :: keys). cbn [store_each length map].
    split; [|split; [|split; [|split; [|split; [|split]]]]].
    + unfold call_store. cbn [Cache_store].
      erewrite bind_returned by exact Hcall.
      erewrite bind_returned by exact Hrun. reflexivity.
    + now rewrite Hlen.
    + rewrite Hc'. f_equal. lia.
    + rewrite Hins', <- app_assoc. reflexivity.
    + rewrite Houts', <- app_assoc. reflexivity.
    + constructor; [apply uuid_str_utf8 | exact Hutf].
    + now rewrite Hquiet.
Qed.

(** *** What the decoration of the plain function gives

    The lemmas of this part are about [decorate store_def], the method
    lines 86 and 87 would produce from [store] as a plain function.  They
    say nothing of the module as written, whose line 86 raises. *)

(** After [Cache()] and n calls, the counter is n, both logs have n
    entries and the kth output entry is the kth key returned. *)
Lemma decorated_store_after_init
    (g : function) (values : list pyval) (entries : list string) (w : world) :
  decorate store_def = Returned g ->
  Forall (fun v => exists enc : string, encode_value v = Returned enc) values ->
  Forall2 (fun v entry => tuple_str [v] = Returned entry) values entries ->
  Z.of_nat (length values) < 2 ^ 63 ->
  exists (w' : world) (keys : list string),
    (cache <- Cache_init;; store_each {| Cache_store := g |} cache values) w
    = (w', Returned (map PStr keys))
    /\ length keys = length values
    /\ counter_read (keyspace w') "Cache.store" = Some (Z.of_nat (length values))
    /\ log_read (keyspace w') "Cache.store:inputs" = Some entries
    /\ log_read (keyspace w') "Cache.store:outputs" = Some keys
    /\ Forall (fun key => utf8_valid key = true) keys
    /\ stdout w' = stdout w.
Proof.
  intros Hg Hvals Hentries Hmax.
  destruct (decorated_store_each g {| _redis := Redis_default |} values entries
              (World ∅ (wire w ++ [FLUSHDB]) (stdout w) (urandom w) (drawn w))
              0 [] [] Hg Hvals Hentries (counter_read_empty _) ltac:(lia)
              (log_read_empty _) (log_read_empty _))
    as (w' & keys & Hrun & Hlen & Hc & Hins & Houts & Hutf & Hquiet).
  exists w', keys. split; [|now repeat split].
  erewrite bind_returned by reflexivity. exact Hrun.
Qed.

(** Reading back the key one call returned: the raw bytes without a
    converter, the text for a UTF-8 [str], the number for an [int]. *)
Lemma decorated_store_roundtrip
    (g : function) (self : Cache) (data : pyval) (enc entry : string) (w : world)
    (c : Z) (ins outs : list string) :
  decorate store_def = Returned g ->
  encode_value data = Returned enc ->
  tuple_str [data] = Returned entry ->
  counter_read (keyspace w) "Cache.store" = Some c -> c + 1 < 2 ^ 63 ->
  log_read (keyspace w) "Cache.store:inputs" = Some ins ->
  log_read (keyspace w) "Cache.store:outputs" = Some outs ->
  exists (w1 : world) (key : string),
    code g self [data] [] w = (w1, Returned (PStr key))
    /\ (get self key None w1).2 = Returned (PBytes enc)
    /\ (forall s : string, data = PStr s -> utf8_valid s = true ->
        (get_str self key w1).2 = Returned (PStr s))
    /\ (forall z : Z, data = PInt z -> (get_int self key w1).2 = Returned (PInt z)).
Proof.
  intros Hg Henc Hentry Hc Hmax Hins Houts.
  eexists. exists (next_key w).
  split; [eapply decorated_store_call; eassumption|].
  assert (Hne : "Cache.store:outputs" <> next_key w).
  { intros Heq. symmetry in Heq. revert Heq. apply uuid_key_ne. cbn. lia. }
  split; [|split].
  - run_M. now rewrite lookup_insert_ne, lookup_insert_eq by exact Hne.
  - intros s -> Hs. cbn [encode_value] in Henc. injection Henc as <-.
    run_M. rewrite lookup_insert_ne, lookup_insert_eq by exact Hne.
    unfold decode_utf8. now rewrite Hs.
  - intros z ->. cbn [encode_value] in Henc.
    apply int_str_returned in Henc as [-> Hdigits].
    run_M. rewrite lookup_insert_ne, lookup_insert_eq by exact Hne.
    now rewrite py_int_int_repr.
Qed.

(** *** The module body *)

(** Line 12 decorates [store] with [functools.wraps] itself, so the class
    body binds [Cache.store] to a [partial] object; line 86 hands it to
    [count_calls], whose first statement reads [__qualname__] from it. *)
Lemma exercise_raises (w : world) : exercise w = (w, Raised no_qualname).
Proof. reflexivity. Qed.

Lemma store_all_raises (values : list pyval) (w : world) :
  store_all values w = (w, Raised no_qualname).
Proof. unfold store_all. apply bind_raised, exercise_raises. Qed.

Lemma store_and_read_raises (data : pyval) (rd : Cache -> string -> M pyval) (w : world) :
  store_and_read data rd w = (w, Raised no_qualname).
Proof. unfold store_and_read. apply bind_raised, exercise_raises. Qed.

(** C1, on the module as written: storing ["foo"] or [42] and reading
    the key back never returns the value.  The run stops with the
    [AttributeError] of line 86, before a cache exists. *)
Theorem store_and_read_foo_raises (w : world) :
  store_and_read (PStr "foo") get_str w = (w, Raised no_qualname)
  /\ store_and_read (PStr "foo") (fun cache key => get cache key None) w
     = (w, Raised no_qualname)
  /\ store_and_read (PInt 42) get_int w = (w, Raised no_qualname).
Proof. repeat split; apply store_and_read_raises. Qed.

(** C2, on the module as written: for every value, a client that calls
    [store] gets no key back and the server receives no command, so no
    [SET]. *)
Theorem store_returns_no_key (data : pyval) (w : world) :
  (store_all [data] w).2 = Raised no_qualname
  /\ wire (store_all [data] w).1 = wire w
  /\ keyspace (store_all [data] w).1 = keyspace w.
Proof. rewrite store_all_raises. repeat split. Qed.

(** C4, on the module as written: after a client's one call of [store]
    on a server with no keys, there is no counter under ["Cache.store"],
    where the claim has the counter at 1. *)
Theorem counter_absent_after_call :
  keyspace (store_all [PStr "foo"] fresh_world).1 !! "Cache.store" = None
  /\ (store_all [PStr "foo"] fresh_world).2 = Raised no_qualname.
Proof. rewrite store_all_raises. split; [apply lookup_empty | reflexivity]. Qed.

(** C5, on the module as written: after a client's one call of [store]
    on a server with no keys, both logs are still empty, where the claim
    has one entry in each. *)
Theorem logs_empty_after_call :
  log_read (keyspace (store_all [PStr "foo"] fresh_world).1) "Cache.store:inputs" = Some []
  /\ log_read (keyspace (store_all [PStr "foo"] fresh_world).1) "Cache.store:outputs"
     = Some [].
Proof. rewrite store_all_raises. split; reflexivity. Qed.

(** C6, on the module as written: a client's call of [store] sends the
    server nothing at all, where the claim has an [RPUSH], an [INCRBY], a
    [SET] and an [RPUSH] in that order. *)
Theorem no_command_sent_on_call (data : pyval) :
  wire (store_all [data] fresh_world).1 = [].
Proof. rewrite store_all_raises. reflexivity. Qed.

End Properties.

(** ** Further properties of the program *)

Section Further.
Context `{PyRepr}.

(** *** [store], [get] and the typed readers *)

(** X1: for every value the client can encode, the body of [store]
    returns a key of 36 characters, sends the one command [SET key value],
    leaves the key holding the encoded value and every other key as it
    was, and prints nothing. *)
Theorem store_writes_one_key (self : Cache) (data : pyval) (enc : string) (w : world) :
  encode_value data = Returned enc ->
  exists (key : string) (w' : world),
    store self data w = (w', Returned (PStr key))
    /\ String.length key = 36%nat
    /\ wire w' = (wire w ++ [SET key enc])%list
    /\ keyspace w' !! key = Some (RString enc)
    /\ (forall key' : string, key' <> key -> keyspace w' !! key' = keyspace w !! key')
    /\ stdout w' = stdout w.
Proof.
  intros Henc. exists (next_key w). eexists.
  split; [apply store_run, Henc|].
  cbn [keyspace wire stdout]. repeat split.
  - apply lookup_insert_eq.
  - intros key' Hne. now rewrite lookup_insert_ne.
Qed.

Lemma store_then_read_run
    (self : Cache) (data : pyval) (enc : string) (rd : Cache -> string -> M pyval)
    (w : world) :
  encode_value data = Returned enc ->
  store_then_read self data rd w
  = rd self (next_key w)
      (World (<[next_key w := RString enc]> (keyspace w)) (wire w ++ [SET (next_key w) enc])
         (stdout w) (urandom w) (S (drawn w))).
Proof.
  intros Henc. unfold store_then_read.
  erewrite bind_returned by (apply store_run, Henc). reflexivity.
Qed.

(** X2: reading the key [store] returned, with no converter, gives back
    the bytes the value was encoded to: the value itself for [bytes], its
    UTF-8 bytes for [str], its decimal text for [int]. *)
Theorem store_get_returns_encoding
    (self : Cache) (data : pyval) (enc : string) (w : world) :
  encode_value data = Returned enc ->
  (store_then_read self data (fun cache key => get cache key None) w).2
  = Returned (PBytes enc).
Proof.
  intros Henc. rewrite (store_then_read_run _ _ enc) by exact Henc.
  run_M. now rewrite lookup_insert_eq.
Qed.

(** X3: [get_str] on the key [store] returned gives the stored bytes as
    text whenever they are UTF-8, so a [str] comes back unchanged. *)
Theorem store_get_str_roundtrip
    (self : Cache) (data : pyval) (enc : string) (w : world) :
  encode_value data = Returned enc ->
  utf8_valid enc = true ->
  (store_then_read self data get_str w).2 = Returned (PStr enc).
Proof.
  intros Henc Hutf. rewrite (store_then_read_run _ _ enc) by exact Henc.
  run_M. rewrite lookup_insert_eq. unfold decode_utf8. now rewrite Hutf.
Qed.

(** X4: [get_int] on the key [store] returned for an [int] of at most
    [int_max_str_digits] digits gives the same [int]: [int] parses what
    [repr] wrote. *)
Theorem store_get_int_roundtrip (self : Cache) (z : Z) (w : world) :
  (int_digits z <= int_max_str_digits)%N ->
  (store_then_read self (PInt z) get_int w).2 = Returned (PInt z).
Proof.
  intros Hz. apply N.leb_le in Hz.
  rewrite (store_then_read_run _ _ (int_repr z))
    by (cbn [encode_value]; unfold int_str; now rewrite Hz).
  run_M. rewrite lookup_insert_eq. now rewrite py_int_int_repr.
Qed.

(** X5: [get_str] on stored bytes that are not UTF-8 raises
    [UnicodeDecodeError]; nothing catches it, and the value stays stored
    under its key. *)
Theorem store_get_str_not_utf8
    (self : Cache) (data : pyval) (enc : string) (w : world) :
  encode_value data = Returned enc ->
  utf8_valid enc = false ->
  exists (key : string) (w' : world),
    store_then_read self data get_str w = (w', Raised UnicodeDecodeError)
    /\ keyspace w' !! key = Some (RString enc)
    /\ wire w' = (wire w ++ [SET key enc; GET key])%list.
Proof.
  intros Henc Hutf. exists (next_key w). eexists.
  rewrite (store_then_read_run _ _ enc) by exact Henc.
  run_M. rewrite lookup_insert_eq. unfold decode_utf8. rewrite Hutf.
  split; [reflexivity|]. cbn [keyspace wire]. split.
  - apply lookup_insert_eq.
  - now rewrite <- app_assoc.
Qed.

(** X6: [get_int] on stored bytes that [int] rejects raises the
    [ValueError] of [int]; nothing catches it. *)
Theorem store_get_int_not_a_number
    (self : Cache) (data : pyval) (enc : string) (e : exn) (w : world) :
  encode_value data = Returned enc ->
  py_int enc = Raised e ->
  (store_then_read self data get_int w).2 = Raised e.
Proof.
  intros Henc Hint. rewrite (store_then_read_run _ _ enc) by exact Henc.
  run_M. rewrite lookup_insert_eq. now rewrite Hint.
Qed.

(** X7: after two calls of [store], the first key still reads as the
    first value when the two keys drawn differ; when the same key is
    drawn twice, the second value has replaced the first, as [store] does
    not look whether the key exists. *)
Theorem second_store_and_first_key
    (self : Cache) (first second : pyval) (enc1 enc2 : string) (w : world) :
  encode_value first = Returned enc1 ->
  encode_value second = Returned enc2 ->
  let w1 := (store self first w).1 in
  (next_key w <> next_key w1 ->
   (store_twice_read_first self first second w).2 = Returned (PBytes enc1))
  /\ (next_key w = next_key w1 ->
      (store_twice_read_first self first second w).2 = Returned (PBytes enc2)).
Proof.
  intros Henc1 Henc2 w1. subst w1.
  unfold store_twice_read_first.
  rewrite (store_run self first enc1 w Henc1). cbn [fst].
  erewrite bind_returned by (apply store_run, Henc1).
  erewrite bind_returned by (apply store_run, Henc2).
  run_M. split; intros Hkeys.
  - rewrite lookup_insert_ne by (intros Heq; apply Hkeys; now rewrite Heq).
    now rewrite lookup_insert_eq.
  - rewrite <- Hkeys. now rewrite lookup_insert_eq.
Qed.


(** *** [replay] in every state *)

Lemma redis_lrange_sends (key : string) (start stop : Z) (w : world) :
  exists r : outcome (list string),
    redis_lrange key start stop w
    = (World (keyspace w) (wire w ++ [LRANGE key start stop]) (stdout w) (urandom w)
         (drawn w), r).
Proof.
  run_M. destruct (keyspace w !! key) as [[v|l]|]; eexists; reflexivity.
Qed.

Lemma redis_lrange_wrongtype (key : string) (start stop : Z) (w : world) :
  log_read (keyspace w) key = None ->
  redis_lrange key start stop w
  = (World (keyspace w) (wire w ++ [LRANGE key start stop]) (stdout w) (urandom w)
       (drawn w), Raised wrongtype).
Proof.
  unfold log_read. run_M.
  now destruct (keyspace w !! key) as [[v|l]|].
Qed.

(** X8: [replay] never writes: for every argument and every state, whether
    it returns or raises, the keyspace is as before, no randomness is
    drawn, every command it sends is an [LRANGE], and it only adds lines
    to the output. *)
Theorem replay_reads_only (method : pyobj) (w : world) :
  keyspace (replay method w).1 = keyspace w
  /\ urandom (replay method w).1 = urandom w
  /\ drawn (replay method w).1 = drawn w
  /\ (exists sent : list command,
        wire (replay method w).1 = (wire w ++ sent)%list
        /\ Forall (fun c => exists key start stop, c = LRANGE key start stop) sent)
  /\ exists printed : list string, stdout (replay method w).1 = (stdout w ++ printed)%list.
Proof.
  destruct method as [f|wrapped].
  2:{ cbn. repeat split; [exists [] | exists []]; rewrite ?app_nil_r; auto. }
  unfold replay, getattr_qualname, lift.
  erewrite bind_returned by reflexivity.
  destruct (redis_lrange_sends (qualname f ++ ":inputs") 0 (-1) w) as [[inputs|e] Hin].
  2:{ erewrite bind_raised by exact Hin. cbn. repeat split.
      - eexists. split; [reflexivity|]. repeat constructor. eauto.
      - exists []. now rewrite app_nil_r. }
  erewrite bind_returned by exact Hin.
  match goal with |- context [bind (redis_lrange ?k 0 (-1)) _ ?w1] =>
    destruct (redis_lrange_sends k 0 (-1) w1) as [[outputs|e] Hout]
  end; cbn [keyspace wire stdout urandom drawn] in Hout.
  2:{ erewrite bind_raised by exact Hout. cbn. repeat split.
      - eexists. split; [now rewrite <- app_assoc|]. repeat constructor; eauto.
      - exists []. now rewrite app_nil_r. }
  erewrite bind_returned by exact Hout.
  erewrite bind_returned by reflexivity.
  match goal with |- context [replay_lines ?k ?p ?w2] =>
    destruct (replay_lines_prints k p w2) as [more Hmore]
  end.
  rewrite Hmore. cbn [keyspace wire stdout urandom drawn]. repeat split.
  - eexists. split; [now rewrite <- app_assoc|]. repeat constructor; eauto.
  - eexists. now rewrite <- app_assoc.
Qed.

(** X9: when either log key holds a string instead of a list, [replay]
    raises the server's WRONGTYPE error and prints nothing, not even the
    count line: both logs are read before the first [print]. *)
Theorem replay_wrong_type_prints_nothing (f : function) (w : world) :
  log_read (keyspace w) (qualname f ++ ":inputs") = None
  \/ log_read (keyspace w) (qualname f ++ ":outputs") = None ->
  (replay (Fn f) w).2 = Raised wrongtype
  /\ stdout (replay (Fn f) w).1 = stdout w.
Proof.
  intros Hbad. unfold replay, getattr_qualname, lift.
  erewrite bind_returned by reflexivity.
  destruct (log_read (keyspace w) (qualname f ++ ":inputs")) as [inputs|] eqn:Hin.
  - destruct Hbad as [Hbad|Hbad]; [discriminate|].
    erewrite bind_returned by (apply redis_lrange_all; exact Hin).
    erewrite bind_raised
      by (apply redis_lrange_wrongtype; cbn [keyspace]; exact Hbad).
    split; reflexivity.
  - erewrite bind_raised by (apply redis_lrange_wrongtype; exact Hin).
    split; reflexivity.
Qed.




(** *** The decorators on any function *)


(** X12: when the key of the counter holds no number the server can
    increment (a list, text that is no canonical 64-bit integer, or the
    largest one), the wrapper of [count_calls] raises the server's error
    and the function is not run: the state is the one before with the
    [INCRBY] added to the commands received. *)
Theorem count_calls_bad_counter_skips_call
    (f : function) (self : Cache) (args : list pyval) (kw : kwargs) (w : world) :
  (forall c : Z, counter_read (keyspace w) (qualname f) = Some c -> 2 ^ 63 <= c + 1) ->
  exists (g : function) (msg : string),
    count_calls (Fn f) = Returned g
    /\ code g self args kw w
       = (World (keyspace w) (wire w ++ [INCRBY (qualname f) 1]) (stdout w) (urandom w)
            (drawn w),
          Raised (ResponseError msg)).
Proof.
  intros Hbad. destruct f as [k cd]. cbn [qualname code] in *.
  eexists. unfold counter_read in Hbad.
  cut (exists msg : string,
         redis_incr k w
         = (World (keyspace w) (wire w ++ [INCRBY k 1]) (stdout w) (urandom w)
              (drawn w),
            Raised (ResponseError msg))).
  { intros [msg Hincr]. exists msg. split; [reflexivity|].
    cbn [code]. now erewrite bind_raised by exact Hincr. }
  run_M. destruct (keyspace w !! k) as [[v|l]|].
  - destruct (string2ll v) as [n|]; [|eexists; reflexivity].
    specialize (Hbad n eq_refl). rewrite decide_False by lia. eexists; reflexivity.
  - eexists; reflexivity.
  - specialize (Hbad 0 eq_refl). lia.
Qed.

(** X13: when [str(args)] can be rendered and the wrapped function
    raises, the wrapper of [call_history] raises the same exception and
    stops in the state the function left: the arguments went to the
    inputs log before the call, and the wrapper sends nothing after it,
    so no output is logged for the call. *)
Theorem call_history_failed_call_unpaired
    (f : function) (self : Cache) (args : list pyval) (kw : kwargs) (w w2 : world)
    (inputs : list string) (entry : string) (e : exn) :
  tuple_str args = Returned entry ->
  log_read (keyspace w) (qualname f ++ ":inputs") = Some inputs ->
  code f self args kw
    (World (<[qualname f ++ ":inputs" := RList (inputs ++ [entry])]> (keyspace w))
       (wire w ++ [RPUSH (qualname f +:+ ":inputs") entry])
       (stdout w) (urandom w) (drawn w))
  = (w2, Raised e) ->
  exists g : function,
    call_history (Fn f) = Returned g
    /\ code g self args kw w = (w2, Raised e).
Proof.
  intros Hentry Hin Hrun.
  destruct (redis_rpush_log _ entry w inputs Hin) as [n Hpush].
  eexists. split; [reflexivity|]. cbn [code].
  erewrite bind_returned by (unfold lift; rewrite Hentry; reflexivity).
  erewrite bind_returned by exact Hpush.
  now erewrite bind_raised by exact Hrun.
Qed.


(** X15: when [str(args)] can be rendered and the inputs key holds a
    string instead of a list, the wrapper of [call_history] raises the
    server's WRONGTYPE error on its first command and the function is not
    run. *)
Theorem call_history_bad_log_skips_call
    (f : function) (self : Cache) (args : list pyval) (kw : kwargs) (w : world)
    (entry : string) :
  tuple_str args = Returned entry ->
  log_read (keyspace w) (qualname f ++ ":inputs") = None ->
  exists g : function,
    call_history (Fn f) = Returned g
    /\ code g self args kw w
       = (World (keyspace w) (wire w ++ [RPUSH (qualname f +:+ ":inputs") entry])
            (stdout w) (urandom w) (drawn w),
          Raised wrongtype).
Proof.
  intros Hentry Hin. destruct f as [k cd]. cbn [qualname code] in *.
  eexists. split; [reflexivity|]. cbn [code qualname].
  erewrite bind_returned by (unfold lift; rewrite Hentry; reflexivity).
  apply bind_raised. unfold log_read in Hin. run_M. cbn [encode_value].
  now destruct (keyspace w !! (k +:+ ":inputs")) as [[v|l]|].
Qed.






(** *** From the calls to the transcript *)




Lemma both_utf8_zip (ins outs : list string) :
  Forall (fun s => utf8_valid s = true) ins ->
  Forall (fun s => utf8_valid s = true) outs ->
  forallb both_utf8 (zip ins outs) = true.
Proof.
  intros Hins. revert outs.
  induction Hins as [|i ins Hi _ IH]; intros outs Houts; [reflexivity|].
  destruct Houts as [|o outs Ho Houts]; [reflexivity|].
  cbn. unfold both_utf8. cbn [fst snd]. rewrite Hi, Ho. cbn. now apply IH.
Qed.

Lemma call_lines_of_calls (key : string) (entries keys : list string) :
  map (fun p => call_line key p.1 p.2) (zip entries keys)
  = zip_with (call_line key) entries keys.
Proof. apply transcript_as_map. Qed.

(** X17: [call_history(count_calls(store))], [store] taken as the plain
    function of lines 13 to 25: after [Cache()] and one call for each of
    n values the client can encode and whose rendering [entries] is
    UTF-8, the counter is n and [replay] returns after printing the count
    line for n and n lines, the kth pairing the rendering of the kth
    argument tuple with the kth key returned. *)
Theorem replay_after_decorated_calls
    (g : function) (values : list pyval) (entries : list string) (w : world) :
  decorate store_def = Returned g ->
  Forall (fun v => exists enc : string, encode_value v = Returned enc) values ->
  Forall2 (fun v entry => tuple_str [v] = Returned entry /\ utf8_valid entry = true)
    values entries ->
  Z.of_nat (length values) < 2 ^ 63 ->
  exists (w1 : world) (keys : list string) (w2 : world),
    (cache <- Cache_init;; store_each {| Cache_store := g |} cache values) w
    = (w1, Returned (map PStr keys))
    /\ length keys = length values
    /\ counter_read (keyspace w1) "Cache.store" = Some (Z.of_nat (length values))
    /\ replay (Fn g) w1 = (w2, Returned tt)
    /\ stdout w2
       = (stdout w
          ++ count_line "Cache.store" (length values)
             :: zip_with (call_line "Cache.store") entries keys)%list.
Proof.
  intros Hg Hvals Hrender Hmax.
  assert (Hentries : Forall2 (fun v entry => tuple_str [v] = Returned entry) values entries).
  { eapply Forall2_impl; [exact Hrender|]. now intros v entry [Hv _]. }
  assert (Hutf8 : Forall (fun entry => utf8_valid entry = true) entries).
  { clear -Hrender. induction Hrender as [|v entry values entries [_ Hv] _ IH];
      constructor; assumption. }
  destruct (decorated_store_after_init g values entries w Hg Hvals Hentries Hmax)
    as (w1 & keys & Hrun & Hlen & Hc & Hins & Houts & Hutf & Hquiet).
  assert (Hname : qualname g = "Cache.store").
  { cbv [decorate count_calls call_history store_def qualname code] in Hg.
    now injection Hg as <-. }
  exists w1, keys. eexists.
  split; [exact Hrun|]. split; [exact Hlen|]. split; [exact Hc|].
  unfold replay, getattr_qualname, lift. rewrite Hname.
  erewrite bind_returned by reflexivity.
  erewrite bind_returned by (apply redis_lrange_all; exact Hins).
  erewrite bind_returned
    by (apply redis_lrange_all; cbn [keyspace]; exact Houts).
  erewrite bind_returned by reflexivity.
  rewrite replay_lines_all by (now apply both_utf8_zip).
  split; [reflexivity|].
  cbn [stdout]. rewrite call_lines_of_calls, Hquiet, <- app_assoc.
  now rewrite (Forall2_length _ _ _ Hentries).
Qed.


(** *** Integers past the conversion limit *)

Lemma int_str_raises (z : Z) :
  (int_max_str_digits < int_digits z)%N -> int_str z = Raised exceeds_limit.
Proof.
  intros Hz. unfold int_str.
  now rewrite (proj2 (N.leb_gt _ _) Hz).
Qed.

(** X18: for an [int] of more than [int_max_str_digits] digits the body
    of [store] draws its key, then raises [ValueError] while the client
    renders the value: no command is sent and the keyspace is as
    before. *)
Theorem store_huge_int_raises (self : Cache) (z : Z) (w : world) :
  (int_max_str_digits < int_digits z)%N ->
  store self (PInt z) w
  = (World (keyspace w) (wire w) (stdout w) (urandom w) (S (drawn w)),
     Raised exceeds_limit).
Proof.
  intros Hz. unfold store, uuid4, os_urandom16. run_M. cbn [encode_value].
  now rewrite (int_str_raises z Hz).
Qed.

(** X19: when [str(args)] raises, as it does for a positional [int] past
    the conversion limit, the wrapper of [call_history] raises the same
    exception before sending anything: the state is unchanged, nothing is
    logged and the function is not run, whatever the keyword
    arguments. *)
Theorem call_history_unrendered_args_skip_call
    (f : function) (self : Cache) (args : list pyval) (kw : kwargs) (w : world) (e : exn) :
  tuple_str args = Raised e ->
  exists g : function,
    call_history (Fn f) = Returned g
    /\ code g self args kw w = (w, Raised e).
Proof.
  intros Hentry. eexists. split; [reflexivity|]. cbn [code].
  apply bind_raised. unfold lift. now rewrite Hentry.
Qed.

(** X20: when the wrapped function returns an [output] that [str]
    cannot render, the wrapper of [call_history] raises the exception of
    [str] after the function has run: the value is not returned and
    nothing is sent after the call, so no output is logged. *)
Theorem call_history_unrendered_output_lost
    (f : function) (self : Cache) (args : list pyval) (kw : kwargs) (w w2 : world)
    (inputs : list string) (entry : string) (output : pyval) (e : exn) :
  tuple_str args = Returned entry ->
  log_read (keyspace w) (qualname f ++ ":inputs") = Some inputs ->
  code f self args kw
    (World (<[qualname f ++ ":inputs" := RList (inputs ++ [entry])]> (keyspace w))
       (wire w ++ [RPUSH (qualname f +:+ ":inputs") entry])
       (stdout w) (urandom w) (drawn w))
  = (w2, Returned output) ->
  py_str output = Raised e ->
  exists g : function,
    call_history (Fn f) = Returned g
    /\ code g self args kw w = (w2, Raised e).
Proof.
  intros Hentry Hin Hrun Htext.
  destruct (redis_rpush_log _ entry w inputs Hin) as [n Hpush].
  eexists. split; [reflexivity|]. cbn [code].
  erewrite bind_returned by (unfold lift; rewrite Hentry; reflexivity).
  erewrite bind_returned by exact Hpush.
  erewrite bind_returned by exact Hrun.
  apply bind_raised. unfold lift. now rewrite Htext.
Qed.

End Further.

(** ** The model on concrete inputs *)

Example uuid_str_sample :
  uuid_str (uuid_set_version 0x00112233445566778899aabbccddeeff 4)
  = "00112233-4455-4677-8899-aabbccddeeff".
Proof. reflexivity. Qed.

Example py_int_samples :
  py_int "42" = Returned 42
  /\ py_int " -0_7 " = Returned (-7)
  /\ py_int "7_" = Raised (ValueError "invalid literal for int() with base 10")
  /\ py_int "" = Raised (ValueError "invalid literal for int() with base 10").
Proof. repeat split. Qed.

Example utf8_valid_samples :
  utf8_valid "foo" = true
  /\ utf8_valid (String (ascii_of_nat 0xC3) (String (ascii_of_nat 0xA9) "")) = true
  /\ utf8_valid (String (ascii_of_nat 0xC0) (String (ascii_of_nat 0x80) "")) = false
  /\ utf8_valid (String (ascii_of_nat 0xED) (String (ascii_of_nat 0xA0) (String (ascii_of_nat 0x80) "")))
     = false
  /\ utf8_valid (String (ascii_of_nat 0xFF) "") = false.
Proof. repeat split. Qed.

Example tuple_str_samples :
  @tuple_str ascii_repr [] = Returned "()"
  /\ @tuple_str ascii_repr [PStr "foo"] = Returned "('foo',)"
  /\ @tuple_str ascii_repr [PStr "foo"; PInt 42] = Returned "('foo', 42)".
Proof. repeat split. Qed.

(** Loading the module stops at line 86. *)
Example exercise_sample :
  @exercise ascii_repr fresh_world
  = (fresh_world,
     Raised (AttributeError "'functools.partial' object has no attribute '__qualname__'")).
Proof. reflexivity. Qed.

(** One call of [call_history(count_calls(store))], [store] taken as a
    plain function, on a server with no keys. *)
Example decorated_store_sample :
  exists g : function,
    @decorate ascii_repr named_store = Returned g
    /\ code g a_cache [PStr "foo"] [] fresh_world
       = (World
            (<["Cache.store:outputs" := RList ["00000000-0000-4000-8000-000000000000"]]>
               (<["00000000-0000-4000-8000-000000000000" := RString "foo"]>
                  (<["Cache.store" := RString "1"]>
                     (<["Cache.store:inputs" := RList ["('foo',)"]]> ∅))))
            [RPUSH "Cache.store:inputs" "('foo',)";
             INCRBY "Cache.store" 1;
             SET "00000000-0000-4000-8000-000000000000" "foo";
             RPUSH "Cache.store:outputs" "00000000-0000-4000-8000-000000000000"]
            [] no_random 1,
          Returned (PStr "00000000-0000-4000-8000-000000000000")).
Proof. eexists. split; reflexivity. Qed.

(** ** The properties on the sample data *)

Lemma get_miss_returns_None_witness :
  get a_cache "absent" (Some failing_converter) fresh_world
  = (World ∅ [GET "absent"] [] no_random 0, Returned PNone).
Proof.
  apply (get_miss_returns_None a_cache "absent" (Some failing_converter) fresh_world).
  reflexivity.
Defined.

Lemma replay_prints_transcript_witness :
  exists w' : world,
    replay (Fn named_store) skewed_world = (w', Returned tt)
    /\ stdout w' = ["Cache.store was called 2 times:"; "Cache.store(*('a',)) -> k1"].
Proof.
  destruct (replay_prints_transcript named_store skewed_world
              ["('a',)"; "('b',)"] ["k1"] eq_refl eq_refl eq_refl)
    as (w' & Hrun & _ & Hout & _).
  exists w'. split; [exact Hrun | exact Hout].
Defined.

Lemma replay_count_is_inputs_length_witness :
  keyspace skewed_world !! "Cache.store" = Some (RString "5")
  /\ exists more : list string,
       stdout (replay (Fn named_store) skewed_world).1
       = "Cache.store was called 2 times:" :: more.
Proof.
  split; [reflexivity|].
  destruct (replay_count_is_inputs_length named_store skewed_world
              ["('a',)"; "('b',)"] ["k1"] eq_refl eq_refl)
    as (more & Hout & _).
  exists more. exact Hout.
Defined.

Lemma call_history_omits_kwargs_witness :
  exists g : function,
    @call_history ascii_repr (Fn tally_method) = Returned g
    /\ (let r := code g a_cache [PStr "a"] [("x", PInt 1); ("y", PInt 2)] fresh_world in
        log_read (keyspace r.1) "Cache.tally:inputs" = Some ["('a',)"]
        /\ r.2 = Returned (PInt 2))
    /\ (let r := code g a_cache [PStr "a"] [] fresh_world in
        log_read (keyspace r.1) "Cache.tally:inputs" = Some ["('a',)"]
        /\ r.2 = Returned (PInt 0)).
Proof.
  destruct (@call_history_omits_kwargs ascii_repr tally_method a_cache [PStr "a"]
              fresh_world [] "('a',)" eq_refl eq_refl)
    as (g & Hg & _ & Hrun).
  exists g. split; [exact Hg|].
  split; cbv zeta; rewrite Hrun; split; reflexivity.
Defined.

(** ** The further properties on the sample data *)

Lemma store_writes_one_key_witness :
  exists (key : string) (w' : world),
    @store ascii_repr a_cache (PStr "foo") fresh_world = (w', Returned (PStr key))
    /\ String.length key = 36%nat
    /\ wire w' = [SET key "foo"].
Proof.
  destruct (@store_writes_one_key ascii_repr a_cache (PStr "foo") "foo" fresh_world eq_refl)
    as (key & w' & Hrun & Hlen & Hwire & _).
  exists key, w'. split; [exact Hrun|]. split; [exact Hlen | exact Hwire].
Defined.

Lemma store_get_int_roundtrip_witness :
  (@store_then_read ascii_repr a_cache (PInt (-42)) get_int fresh_world).2
  = Returned (PInt (-42)).
Proof.
  apply (@store_get_int_roundtrip ascii_repr a_cache (-42) fresh_world).
  apply N.leb_le. reflexivity.
Defined.

Lemma store_get_returns_encoding_witness :
  (@store_then_read ascii_repr a_cache (PInt 42) (fun cache key => get cache key None)
     fresh_world).2
  = Returned (PBytes "42").
Proof.
  apply (@store_get_returns_encoding ascii_repr a_cache (PInt 42) "42" fresh_world).
  reflexivity.
Defined.

Lemma store_get_str_roundtrip_witness :
  (@store_then_read ascii_repr a_cache (PStr "foo") get_str fresh_world).2
  = Returned (PStr "foo").
Proof.
  apply (@store_get_str_roundtrip ascii_repr a_cache (PStr "foo") "foo" fresh_world);
    reflexivity.
Defined.

Lemma store_get_str_not_utf8_witness :
  exists (key : string) (w' : world),
    @store_then_read ascii_repr a_cache (PBytes not_utf8) get_str fresh_world
    = (w', Raised UnicodeDecodeError)
    /\ keyspace w' !! key = Some (RString not_utf8).
Proof.
  destruct (@store_get_str_not_utf8 ascii_repr a_cache (PBytes not_utf8) not_utf8
              fresh_world eq_refl eq_refl)
    as (key & w' & Hrun & Hkept & _).
  exists key, w'. split; [exact Hrun | exact Hkept].
Defined.

Lemma store_get_int_not_a_number_witness :
  (@store_then_read ascii_repr a_cache (PStr "foo") get_int fresh_world).2
  = Raised (ValueError "invalid literal for int() with base 10").
Proof.
  apply (@store_get_int_not_a_number ascii_repr a_cache (PStr "foo") "foo" _ fresh_world);
    reflexivity.
Defined.

Lemma second_store_and_first_key_witness :
  (@store_twice_read_first ascii_repr a_cache (PStr "a") (PStr "b") counting_world).2
  = Returned (PBytes "a")
  /\ (@store_twice_read_first ascii_repr a_cache (PStr "a") (PStr "b") fresh_world).2
     = Returned (PBytes "b").
Proof.
  split.
  - apply (proj1 (@second_store_and_first_key ascii_repr a_cache (PStr "a") (PStr "b")
                    "a" "b" counting_world eq_refl eq_refl)).
    intros Hsame. vm_compute in Hsame. discriminate Hsame.
  - apply (proj2 (@second_store_and_first_key ascii_repr a_cache (PStr "a") (PStr "b")
                    "a" "b" fresh_world eq_refl eq_refl)).
    reflexivity.
Defined.

Lemma replay_wrong_type_prints_nothing_witness :
  (replay (Fn named_store) clobbered_world).2 = Raised wrongtype
  /\ stdout (replay (Fn named_store) clobbered_world).1 = [].
Proof.
  apply (replay_wrong_type_prints_nothing named_store clobbered_world).
  left. reflexivity.
Defined.



Lemma count_calls_bad_counter_skips_call_witness :
  exists (g : function) (msg : string),
    count_calls (Fn named_store) = Returned g
    /\ code g a_cache [PStr "foo"] [] miscounted_world
       = (World (keyspace miscounted_world) [INCRBY "Cache.store" 1] [] no_random 0,
          Raised (ResponseError msg)).
Proof.
  apply (count_calls_bad_counter_skips_call named_store a_cache [PStr "foo"] []
           miscounted_world).
  intros c Hc. vm_compute in Hc. discriminate Hc.
Defined.

Lemma call_history_failed_call_unpaired_witness :
  exists g : function,
    @call_history ascii_repr (Fn failing_method) = Returned g
    /\ code g a_cache [] [] fresh_world
       = (World (<["Cache.fail:inputs" := RList ["()"]]> ∅) [RPUSH "Cache.fail:inputs" "()"]
            [] no_random 0,
          Raised (ValueError "no")).
Proof.
  apply (@call_history_failed_call_unpaired ascii_repr failing_method a_cache [] []
           fresh_world _ [] "()" _); reflexivity.
Defined.


Lemma call_history_bad_log_skips_call_witness :
  exists g : function,
    @call_history ascii_repr (Fn named_store) = Returned g
    /\ code g a_cache [PStr "foo"] [] clobbered_world
       = (World (keyspace clobbered_world) [RPUSH "Cache.store:inputs" "('foo',)"] []
            no_random 0,
          Raised wrongtype).
Proof.
  apply (@call_history_bad_log_skips_call ascii_repr named_store a_cache [PStr "foo"] []
           clobbered_world "('foo',)"); reflexivity.
Defined.


Lemma replay_after_decorated_calls_witness :
  exists (g : function) (w1 : world) (keys : list string) (w2 : world),
    @decorate ascii_repr named_store = Returned g
    /\ (cache <- Cache_init;;
        store_each {| Cache_store := g |} cache [PStr "a"; PInt 7])
         counting_world
       = (w1, Returned (map PStr keys))
    /\ length keys = 2%nat
    /\ counter_read (keyspace w1) "Cache.store" = Some 2
    /\ replay (Fn g) w1 = (w2, Returned tt).
Proof.
  assert (Hdec : exists g : function, @decorate ascii_repr named_store = Returned g)
    by (eexists; reflexivity).
  destruct Hdec as [g Hg].
  assert (Hvals : Forall (fun v => exists enc : string,
                            @encode_value ascii_repr v = Returned enc)
                    [PStr "a"; PInt 7])
    by (repeat constructor; eexists; reflexivity).
  assert (Hrender : Forall2 (fun v entry => @tuple_str ascii_repr [v] = Returned entry
                                            /\ utf8_valid entry = true)
                      [PStr "a"; PInt 7] ["('a',)"; "(7,)"])
    by (repeat constructor).
  destruct (@replay_after_decorated_calls ascii_repr g [PStr "a"; PInt 7]
              ["('a',)"; "(7,)"] counting_world Hg Hvals Hrender eq_refl)
    as (w1 & keys & w2 & Hrun & Hlen & Hc & Hreplay & _).
  exists g, w1, keys, w2. split; [exact Hg|].
  split; [exact Hrun|]. split; [exact Hlen|]. split; [exact Hc | exact Hreplay].
Defined.

(** The whole scenario on the plain function: [Cache()], two calls,
    [replay]. *)
Example replay_after_two_calls_sample :
  exists g : function,
    @decorate ascii_repr named_store = Returned g
    /\ stdout ((cache <- Cache_init;;
                store_each {| Cache_store := g |} cache [PStr "a"; PStr "b"];;;
                replay (Fn g)) counting_world).1
       = ["Cache.store was called 2 times:";
          "Cache.store(*('a',)) -> 00000000-0000-4000-8000-000000000000";
          "Cache.store(*('b',)) -> 00000000-0000-4000-8000-000000000001"].
Proof. eexists. split; reflexivity. Qed.

Lemma zeros_length (n : nat) : String.length (NilEmpty.string_of_uint (zeros n)) = n.
Proof. induction n as [|n IH]; cbn; [reflexivity | now rewrite IH]. Qed.

Lemma int_repr_of_digits (d : Decimal.uint) :
  int_repr (Z.of_N (Pos.of_uint (Decimal.D1 d)))
  = String "1" (NilEmpty.string_of_uint d).
Proof.
  unfold int_repr.
  assert (Hint : forall n : N, Z.to_int (Z.of_N n) = Decimal.Pos (N.to_uint n))
    by (now intros [|p]).
  rewrite Hint, DecimalPos.Unsigned.to_of. reflexivity.
Qed.

(** [huge_int] has one digit more than the conversion limit allows. *)
Lemma huge_int_digits : int_digits huge_int = N.of_nat 4301.
Proof.
  unfold int_digits, huge_int.
  rewrite Z.abs_eq by apply N2Z.is_nonneg.
  rewrite int_repr_of_digits. cbn [String.length]. now rewrite zeros_length.
Qed.

Lemma huge_int_exceeds : (int_max_str_digits < int_digits huge_int)%N.
Proof. rewrite huge_int_digits. reflexivity. Qed.

Lemma store_huge_int_raises_witness :
  @store ascii_repr a_cache (PInt huge_int) fresh_world
  = (World ∅ [] [] no_random 1, Raised exceeds_limit).
Proof.
  apply (@store_huge_int_raises ascii_repr a_cache huge_int fresh_world).
  exact huge_int_exceeds.
Defined.

Lemma call_history_unrendered_args_skip_call_witness :
  exists g : function,
    @call_history ascii_repr (Fn tally_method) = Returned g
    /\ code g a_cache [PInt huge_int] [("x", PInt 1)] fresh_world
       = (fresh_world, Raised exceeds_limit).
Proof.
  apply (@call_history_unrendered_args_skip_call ascii_repr tally_method a_cache
           [PInt huge_int] [("x", PInt 1)] fresh_world exceeds_limit).
  unfold tuple_str. cbn [py_reprs py_repr].
  now rewrite (int_str_raises huge_int huge_int_exceeds).
Defined.

Lemma call_history_unrendered_output_lost_witness :
  exists g : function,
    @call_history ascii_repr (Fn huge_method) = Returned g
    /\ code g a_cache [] [] fresh_world
       = (World (<["Cache.huge:inputs" := RList ["()"]]> ∅) [RPUSH "Cache.huge:inputs" "()"]
            [] no_random 0,
          Raised exceeds_limit).
Proof.
  apply (@call_history_unrendered_output_lost ascii_repr huge_method a_cache [] []
           fresh_world _ [] "()" (PInt huge_int) exceeds_limit);
    [reflexivity | reflexivity | reflexivity |].
  cbn [py_str py_repr]. exact (int_str_raises huge_int huge_int_exceeds).
Defined.

(** [int] at the conversion limit: the run of digits is counted before
    what follows it is looked at, after the underscores are checked. *)
Example py_int_limit_samples :
  py_int (ones 4301) = Raised exceeds_limit
  /\ py_int (" -" ++ ones 4301 ++ " ") = Raised exceeds_limit
  /\ py_int (ones 4301 ++ "x") = Raised exceeds_limit
  /\ py_int (ones 4301 ++ "_")
     = Raised (ValueError "invalid literal for int() with base 10")
  /\ py_int ("x" ++ ones 4301)
     = Raised (ValueError "invalid literal for int() with base 10").
Proof.
  split; [vm_compute; reflexivity|].
  split; [vm_compute; reflexivity|].
  split; [vm_compute; reflexivity|].
  split; vm_compute; reflexivity.
Qed.
